(** * A shallow embedding of [main.py]: a JSON API over an in-memory list

    The program is a small HTTP server.  Its handlers ([index],
    [list_items], [search], [add], [delete]) read and mutate the list
    [example_data["items"]]; [call_api] dispatches a (method, path) pair
    through the routing table and turns the handler's return value or
    exception into a response; [do_GET] and [do_POST] prepare the arguments
    and serve [/health] and [/metrics] themselves.

    Python values are modelled by [pyval], exceptions by [exn], the
    handlers by a state-and-exception monad over the item list, and the
    server by explicit state passing over [Server]. *)

From Stdlib Require Import ZArith Floats.SpecFloat.
From stdpp Require Import base option list sorting strings gmap pretty.

Set Warnings "-register-all".

Local Open Scope string_scope.
Local Open Scope list_scope.
Local Open Scope Z_scope.

(** ** Python values *)

(** The values [json.loads], [parse_qs] and the handlers produce.  Integers
    are unbounded; a float is kept as its IEEE datum; a dictionary is the
    sequence of its entries in insertion order. *)
Inductive pyval : Type :=
  | PyNone
  | PyBool (b : bool)
  | PyInt (n : Z)
  | PyFloat (f : spec_float)
  | PyStr (s : string)
  | PyList (l : list pyval)
  | PyDict (entries : list (string * pyval)).

(** The exceptions the modelled code can raise; each carries the operand
    its message is built from. *)
Inductive exn : Type :=
  | IndexError
  | AttributeError (obj : pyval)
  | TypeError (operand : pyval)
  | ValueError (msg : string).

Inductive result (A : Type) : Type :=
  | Returns (a : A)
  | Raises (e : exn).
Arguments Returns {A} a.
Arguments Raises {A} e.

(** What the interpreter, the host and [prometheus_client] provide and
    [main.py] only uses: the host name, the content type of the metrics
    format, [==] on the values stored under "name" and "description",
    [str()] of floats and containers, and [str()] of an exception. *)
Class Runtime : Type := {
  gethostname : string;
  CONTENT_TYPE_LATEST : string;
  value_eq : pyval → pyval → bool;
  repr_value : pyval → string;
  str_exn : exn → string
}.

(** [d.get(k)]'s search of the entries. *)
Fixpoint assoc (k : string) (entries : list (string * pyval)) : option pyval :=
  match entries with
  | [] => None
  | (k', v) :: rest => if decide (k = k') then Some v else assoc k rest
  end.

(** [d.get(k)]: the value under [k], [None] when there is none. *)
Definition dict_get (k : string) (entries : list (string * pyval)) : pyval :=
  default PyNone (assoc k entries).

(** [x is None] *)
Definition is_none (v : pyval) : bool :=
  match v with PyNone => true | _ => false end.

(** [k in d] for a string key. *)
Definition has_key (k : string) (entries : list (string * pyval)) : bool :=
  bool_decide (is_Some (assoc k entries)).

(** ** Comparing a stored integer id with a decoded value: [n == v] *)

(** An integer equals a float when the float's exact value is that
    integer; Python compares the two without rounding. *)
Definition float_eq_int (f : spec_float) (n : Z) : bool :=
  match f with
  | S754_zero _ => n =? 0
  | S754_infinity _ => false
  | S754_nan => false
  | S754_finite s m e =>
      let sm := if s then Z.neg m else Z.pos m in
      if 0 <=? e then n =? sm * 2 ^ e else n * 2 ^ (- e) =? sm
  end.

(** [bool] is a subclass of [int]: [True == 1], [False == 0].  A string,
    [None], a list or a dictionary never equals an integer. *)
Definition py_int_eq (n : Z) (v : pyval) : bool :=
  match v with
  | PyInt k => n =? k
  | PyBool b => n =? (if b then 1 else 0)
  | PyFloat f => float_eq_int f n
  | _ => false
  end.

(** ** Strings: [q in s] *)

Fixpoint starts_with (q s : string) : bool :=
  match q with
  | EmptyString => true
  | String a q' =>
      match s with
      | EmptyString => false
      | String b s' => if decide (a = b) then starts_with q' s' else false
      end
  end.

Fixpoint str_contains (q s : string) : bool :=
  starts_with q s ||
  match s with
  | EmptyString => false
  | String _ s' => str_contains q s'
  end.

(** ** The data store *)

(** An element of [example_data["items"]]: a dictionary with the keys
    "id", "name" and "description", in that order.  The id is always a
    Python int (the literals, and [last_id + 1] in [add]); the other two
    fields hold whatever value the request carried. *)
Record Item : Type := {
  item_id : Z;
  item_name : pyval;
  item_description : pyval
}.

Definition item_dict (it : Item) : pyval :=
  PyDict [("id", PyInt (item_id it));
          ("name", item_name it);
          ("description", item_description it)].

Definition example_data : list Item :=
  [ {| item_id := 1000; item_name := PyStr "cat";
       item_description := PyStr "cat is meowing" |};
    {| item_id := 1001; item_name := PyStr "dog";
       item_description := PyStr "dog is barking" |};
    {| item_id := 1002; item_name := PyStr "bird";
       item_description := PyStr "bird is singing" |} ].

(** ** Handlers run in a state-and-exception monad over the item list *)

Definition M (A : Type) : Type := list Item → result A * list Item.

Definition ret {A} (a : A) : M A := λ st, (Returns a, st).
Definition raise {A} (e : exn) : M A := λ st, (Raises e, st).
Definition bind {A B} (m : M A) (k : A → M B) : M B :=
  λ st, match m st with
        | (Returns a, st') => k a st'
        | (Raises e, st') => (Raises e, st')
        end.
Definition get_items : M (list Item) := λ st, (Returns st, st).
Definition put_items (l : list Item) : M unit := λ _, (Returns tt, l).
Definition lift {A} (r : result A) : M A := λ st, (r, st).

Declare Scope py_scope.
Delimit Scope py_scope with py.
Notation "x <- m ;; k" := (bind m (λ x, k))
  (at level 100, m at next level, right associativity) : py_scope.
Notation "m ;;; k" := (bind m (λ _, k))
  (at level 100, right associativity) : py_scope.
Local Open Scope py_scope.

(** [args.get(key)]: only a dictionary has the method; a missing key
    gives [None]. *)
Definition py_get (args : pyval) (key : string) : M pyval :=
  match args with
  | PyDict entries => ret (dict_get key entries)
  | _ => raise (AttributeError args)
  end.

(** [example_data["items"][-1]] *)
Definition last_item : M Item :=
  items <- get_items ;;
  match last items with
  | Some it => ret it
  | None => raise IndexError
  end.

(** [example_data["items"].append(item)] *)
Definition append (it : Item) : M unit :=
  items <- get_items ;; put_items (items ++ [it]).

Definition error_payload (msg : string) : pyval :=
  PyDict [("error", PyStr msg)].

(** [add], lines 182-198. *)
Definition add (args : pyval) : M pyval :=
  last <- last_item ;;
  let last_id := item_id last in
  name <- py_get args "name" ;;
  description <- py_get args "description" ;;
  if is_none name || is_none description then
    ret (error_payload "name and description are required")
  else
    let item := {| item_id := last_id + 1;
                   item_name := name;
                   item_description := description |} in
    append item ;;;
    ret (item_dict item).

(** [list_items], lines 159-164. *)
Definition list_items (_ : pyval) : M pyval :=
  items <- get_items ;;
  ret (PyDict [("count", PyInt (Z.of_nat (length items)));
               ("items", PyList (item_dict <$> items))]).

Section Handlers.
Context `{Runtime}.

(** [index], lines 149-156. *)
Definition index (_ : pyval) : M pyval :=
  ret (PyDict [("name", PyStr "Python REST API Example");
               ("summary", PyStr "Simple REST API with pure Python");
               ("version", PyStr "1.0.0");
               ("hostname", PyStr gethostname)]).

(** [x in container].  A string accepts only a string on the left and
    tests for a substring; a list tests its elements with [==]; a
    dictionary looks the key up, which needs a hashable key, and its keys
    are strings; nothing else is a container. *)
Definition py_in (x container : pyval) : result bool :=
  match container with
  | PyStr s =>
      match x with
      | PyStr q => Returns (str_contains q s)
      | _ => Raises (TypeError x)
      end
  | PyList l => Returns (existsb (λ e, value_eq e x) l)
  | PyDict entries =>
      match x with
      | PyList _ | PyDict _ => Raises (TypeError x)
      | PyStr k => Returns (has_key k entries)
      | _ => Returns false
      end
  | _ => Raises (TypeError container)
  end.

(** [[item for item in items if q in item["name"]]] *)
Fixpoint comprehension (q : pyval) (items : list Item) : M (list Item) :=
  match items with
  | [] => ret []
  | item :: rest =>
      keep <- lift (py_in q (item_name item)) ;;
      results <- comprehension q rest ;;
      ret (if keep : bool then item :: results else results)
  end.

(** [search], lines 167-179. *)
Definition search (args : pyval) : M pyval :=
  q <- py_get args "q" ;;
  if is_none q then
    ret (error_payload "q parameter required")
  else
    items <- get_items ;;
    results <- comprehension q items ;;
    ret (PyDict [("count", PyInt (Z.of_nat (length results)));
                 ("items", PyList (item_dict <$> results))]).

(** [a == b] on two items of the store: both have the same three keys, and
    the values are compared key by key. *)
Definition item_eq (a b : Item) : bool :=
  (item_id a =? item_id b)
  && value_eq (item_name a) (item_name b)
  && value_eq (item_description a) (item_description b).

(** [l.remove(x)], where [x] is the object at position [pos] of [l]: the
    first element that is [x] itself or equals [x] is dropped; there being
    none is a [ValueError].  Every position of the store holds a
    dictionary of its own, so an element is [x] itself exactly at [pos]. *)
Fixpoint list_remove (pos : nat) (x : Item) (l : list Item)
  : result (list Item) :=
  match l with
  | [] => Raises (ValueError "list.remove(x): x not in list")
  | e :: rest =>
      if bool_decide (pos = 0%nat) || item_eq e x then Returns rest
      else match list_remove (Nat.pred pos) x rest with
           | Returns rest' => Returns (e :: rest')
           | Raises err => Raises err
           end
  end.

Definition remove (pos : nat) (x : Item) : M unit :=
  items <- get_items ;;
  items' <- lift (list_remove pos x items) ;;
  put_items items'.

(** [f"{v}"] *)
Definition py_str (v : pyval) : string :=
  match v with
  | PyNone => "None"
  | PyBool true => "True"
  | PyBool false => "False"
  | PyInt n => pretty n
  | PyStr s => s
  | _ => repr_value v
  end.

(** The [for] loop of [delete], lines 208-213: [pending] is what is left
    to visit and [pos] the position of its head in the store. *)
Fixpoint delete_loop (pos : nat) (pending : list Item) (given : pyval)
  : M pyval :=
  match pending with
  | [] => ret (error_payload ("item not found with id " +:+ py_str given))
  | item :: rest =>
      if py_int_eq (item_id item) given then
        remove pos item ;;;
        ret (PyDict [("deleted", given)])
      else delete_loop (S pos) rest given
  end.

(** [delete], lines 201-213. *)
Definition delete (args : pyval) : M pyval :=
  given <- py_get args "id" ;;
  if is_none given then
    ret (error_payload "id parameter required")
  else
    items <- get_items ;;
    delete_loop 0 items given.

End Handlers.

(** ** The router *)

Inductive Method : Type := GET | POST.

(** [class API]: [routing] has one table per method. *)
Record API : Type := {
  routing : Method → gmap string (pyval → M pyval)
}.

(** [API()] *)
Definition API_init : API := {| routing := λ _, ∅ |}.

(** [@api.get(path)] *)
Definition get (path : string) (fn : pyval → M pyval) (self : API) : API :=
  {| routing := λ m, match m with
                     | GET => <[path := fn]> (routing self GET)
                     | POST => routing self POST
                     end |}.

(** [@api.post(path)] *)
Definition post (path : string) (fn : pyval → M pyval) (self : API) : API :=
  {| routing := λ m, match m with
                     | GET => routing self GET
                     | POST => <[path := fn]> (routing self POST)
                     end |}.

(** The module-level [api] after the five decorated definitions. *)
Definition api `{Runtime} : API :=
  post "/delete" delete
    (post "/add" add
       (get "/search" search
          (get "/list" list_items
             (get "/" index API_init)))).

(** ** The server *)

(** The process state: the three metrics and the item list. *)
Record Server : Type := {
  REQUESTS_TOTAL : Z;
  CPU_USAGE : spec_float;
  RAM_USAGE : spec_float;
  items : list Item
}.

(** What is written after the headers: [json.dumps(v, indent=4)] of a
    value, literal bytes, or [generate_latest()] of the three metrics. *)
Inductive Body : Type :=
  | JsonBody (v : pyval)
  | RawBody (s : string)
  | MetricsBody (requests : Z) (cpu ram : spec_float).

(** A response: the status code, the headers [send_header] adds (the
    reason phrase and the headers of [send_response] itself are left
    out), and the body. *)
Record Response : Type := {
  status : Z;
  headers : list (string * string);
  body : Body
}.

(** [REQUESTS_TOTAL.inc()] *)
Definition inc (s : Server) : Server :=
  {| REQUESTS_TOTAL := REQUESTS_TOTAL s + 1;
     CPU_USAGE := CPU_USAGE s; RAM_USAGE := RAM_USAGE s;
     items := items s |}.

Definition with_items (s : Server) (l : list Item) : Server :=
  {| REQUESTS_TOTAL := REQUESTS_TOTAL s;
     CPU_USAGE := CPU_USAGE s; RAM_USAGE := RAM_USAGE s;
     items := l |}.

(** [call_api], lines 41-63, over the table [rt] ([api.routing]). *)
Definition call_api `{Runtime} (rt : API) (method : Method) (path : string)
    (args : pyval) (s : Server) : Response * Server :=
  let s := inc s in
  match routing rt method !! path with
  | Some fn =>
      match fn args (items s) with
      | (Returns result, l) =>
          ({| status := 200; headers := []; body := JsonBody result |},
           with_items s l)
      | (Raises e, l) =>
          ({| status := 500; headers := [];
              body := JsonBody (error_payload (str_exn e)) |},
           with_items s l)
      end
  | None =>
      ({| status := 404; headers := [];
          body := JsonBody (error_payload "not found") |}, s)
  end.

(** A GET request as [do_GET] sees it: what [urlparse] makes of the
    request target at line 66, the path, or the ValueError it raises on a
    target it rejects; and [parse_qs] of the query, a dictionary from each
    key to the list of its values, which is read only when [urlparse] has
    returned. *)
Record GetRequest : Type := {
  get_path : result string;
  get_query : list (string * list string)
}.

(** The readings [psutil] gives when [/metrics] is served. *)
Record Psutil : Type := {
  cpu_percent : spec_float;
  virtual_memory_percent : spec_float
}.

(** Lines 70-72: a key with exactly one value is bound to that value, any
    other keeps its list. *)
Definition unwrap_single (query : list (string * list string)) : pyval :=
  PyDict ((λ kv : string * list string,
             (kv.1, match kv.2 with
                    | [v] => PyStr v
                    | vs => PyList (PyStr <$> vs)
                    end)) <$> query).

(** [do_GET], lines 65-92.  An exception of [urlparse] is not caught
    here: nothing is answered and nothing has changed. *)
Definition do_GET `{Runtime} (rt : API) (ps : Psutil) (req : GetRequest)
    (s : Server) : result Response * Server :=
  match get_path req with
  | Raises e => (Raises e, s)
  | Returns path =>
      let args := unwrap_single (get_query req) in
      if decide (path = "/health") then
        (Returns {| status := 200; headers := []; body := RawBody "OK" |}, s)
      else if decide (path = "/metrics") then
        let s := {| REQUESTS_TOTAL := REQUESTS_TOTAL s;
                    CPU_USAGE := cpu_percent ps;
                    RAM_USAGE := virtual_memory_percent ps;
                    items := items s |} in
        (Returns
           {| status := 200;
              headers := [("Content-Type", CONTENT_TYPE_LATEST)];
              body := MetricsBody (REQUESTS_TOTAL s) (CPU_USAGE s)
                        (RAM_USAGE s) |},
         s)
      else
        let '(r, s') := call_api rt GET path args s in
        (Returns r, s')
  end.

(** A POST request as [do_POST] sees it: what [urlparse] makes of the
    request target at line 95, the path, or the ValueError it raises on a
    target it rejects; the content-type header if there is one; and what
    lines 105-107 obtain from the content-length header and the body,
    [json.loads] of the bytes read or the exception one of these steps
    raises. *)
Record PostRequest : Type := {
  post_path : result string;
  content_type : option string;
  read_json : result pyval
}.

(** [do_POST], lines 94-107.  An exception of [urlparse], which comes
    before the test of the content type, or of the decoding steps is not
    caught here. *)
Definition do_POST `{Runtime} (rt : API) (req : PostRequest) (s : Server)
    : result Response * Server :=
  match post_path req with
  | Raises e => (Raises e, s)
  | Returns path =>
      if decide (content_type req ≠ Some "application/json") then
        (Returns {| status := 400; headers := [];
                    body := JsonBody
                      (error_payload "posted data must be in json format") |},
         s)
      else
        match read_json req with
        | Returns args =>
            let '(r, s') := call_api rt POST path args s in
            (Returns r, s')
        | Raises e => (Raises e, s)
        end
  end.

(** The process as started: no request counted, gauges at zero, the
    example data. *)
Definition initial : Server :=
  {| REQUESTS_TOTAL := 0;
     CPU_USAGE := S754_zero false; RAM_USAGE := S754_zero false;
     items := example_data |}.

(** A sample runtime on which the model is evaluated in the examples
    below: CPython's messages, and a structural [==].  The theorems hold
    for every runtime. *)
Definition type_name (v : pyval) : string :=
  match v with
  | PyNone => "NoneType" | PyBool _ => "bool" | PyInt _ => "int"
  | PyFloat _ => "float" | PyStr _ => "str" | PyList _ => "list"
  | PyDict _ => "dict"
  end.

Fixpoint structural_eq (a b : pyval) {struct a} : bool :=
  match a, b with
  | PyNone, PyNone => true
  | PyBool x, PyBool y => bool_decide (x = y)
  | PyInt x, _ => py_int_eq x b
  | PyStr x, PyStr y => bool_decide (x = y)
  | PyList x, PyList y =>
      (fix all2 (x y : list pyval) : bool :=
         match x, y with
         | [], [] => true
         | u :: x', v :: y' => structural_eq u v && all2 x' y'
         | _, _ => false
         end) x y
  | _, _ => false
  end.

Definition sample_runtime : Runtime := {|
  gethostname := "localhost";
  CONTENT_TYPE_LATEST := "text/plain; version=0.0.4; charset=utf-8";
  value_eq := structural_eq;
  repr_value := λ v, "<" +:+ type_name v +:+ ">";
  str_exn := λ e,
    match e with
    | IndexError => "list index out of range"
    | AttributeError v =>
        "'" +:+ type_name v +:+ "' object has no attribute 'get'"
    | TypeError v =>
        "argument of type '" +:+ type_name v +:+ "' is not iterable"
    | ValueError msg => msg
    end
|}.

(** * Vocabulary of the specification *)

(** [k] has no value in the dictionary: the key is absent, or bound to
    [None]; [d.get(k) is None] cannot tell the two apart. *)
Definition missing (k : string) (entries : list (string * pyval)) : Prop :=
  assoc k entries = None ∨ assoc k entries = Some PyNone.

(** The items whose id differs from [given] under [==]. *)
Definition skipped (given : pyval) (l : list Item) : Prop :=
  Forall (λ e, py_int_eq (item_id e) given = false) l.

(** Ids grow strictly along the store. *)
Definition ascending (st : list Item) : Prop :=
  StronglySorted (λ a b, item_id a < item_id b) st.

(** [s] begins with [q]. *)
Definition prefix_of_string (q s : string) : Prop :=
  ∃ post : string, s = q +:+ post.

(** [q] occurs in [s] as a contiguous run of characters, each compared
    for equality, so that case matters. *)
Definition substring_of (q s : string) : Prop :=
  ∃ pre post : string, s = pre +:+ q +:+ post.

#[global] Instance prefix_of_string_dec (q s : string) :
  Decision (prefix_of_string q s).
Proof.
  revert s. induction q as [|a q IH]; intros s.
  - left. by exists s.
  - destruct s as [|b s].
    + right. intros [post Hpost]. discriminate Hpost.
    + destruct (decide (a = b)) as [Hab | Hab].
      * destruct (IH s) as [Hs | Hs].
        -- left. destruct Hs as [post Hpost]. exists post.
           change (String b s = String a (q +:+ post)).
           by rewrite Hab, Hpost.
        -- right. intros [post Hpost]. apply Hs. exists post.
           change (String b s = String a (q +:+ post)) in Hpost.
           congruence.
      * right. intros [post Hpost].
        change (String b s = String a (q +:+ post)) in Hpost. congruence.
Defined.

#[global] Instance substring_of_dec (q s : string) :
  Decision (substring_of q s).
Proof.
  induction s as [|b s IH].
  - destruct (decide (prefix_of_string q "")) as [Hp | Hp].
    + left. destruct Hp as [post Hpost]. by exists "", post.
    + right. intros (pre & post & Hpost). apply Hp.
      destruct pre; [by exists post | discriminate Hpost].
  - destruct (decide (prefix_of_string q (String b s))) as [Hp | Hp].
    + left. destruct Hp as [post Hpost]. by exists "", post.
    + destruct IH as [Hs | Hs].
      * left. destruct Hs as (pre & post & Hpost).
        exists (String b pre), post.
        change (String b s = String b (pre +:+ q +:+ post)).
        by rewrite Hpost.
      * right. intros (pre & post & Hpost). destruct pre as [|a pre].
        -- apply Hp. by exists post.
        -- apply Hs. exists pre, post.
           change (String b s = String a (pre +:+ q +:+ post)) in Hpost.
           congruence.
Defined.

(** The item's name is a string in which [q] occurs. *)
Definition name_contains (q : string) (it : Item) : Prop :=
  match item_name it with
  | PyStr s => substring_of q s
  | _ => False
  end.

#[global] Instance name_contains_dec (q : string) (it : Item) :
  Decision (name_contains q it).
Proof. unfold name_contains. destruct (item_name it); apply _. Defined.

(** Every name in the store is a string. *)
Definition string_names (st : list Item) : Prop :=
  Forall (λ it, ∃ s, item_name it = PyStr s) st.

(** A run of [add] calls, one per element of [requests], each of which
    returns the item it created; [st'] is the store after the last. *)
Fixpoint successful_adds (requests : list pyval) (st st' : list Item)
  : Prop :=
  match requests with
  | [] => st' = st
  | args :: rest =>
      ∃ it mid, add args st = (Returns (item_dict it), mid)
                ∧ successful_adds rest mid st'
  end.

Section Reachability.
Context `{Runtime}.

(** The stores the process can be in: the example data, and what a call
    of [add] or [delete], with any argument, leaves behind. *)
Inductive reachable : list Item → Prop :=
  | reachable_start : reachable example_data
  | reachable_add args st : reachable st → reachable (add args st).2
  | reachable_delete args st : reachable st → reachable (delete args st).2.

End Reachability.

(** The responses of the two refusals. *)
Definition not_found : Response :=
  {| status := 404; headers := [];
     body := JsonBody (error_payload "not found") |}.

Definition bad_content_type : Response :=
  {| status := 400; headers := [];
     body := JsonBody (error_payload "posted data must be in json format") |}.

(** The arguments of the test of [add], and a server whose items have all
    been deleted after three requests. *)
Definition fish : list (string * pyval) :=
  [("name", PyStr "fish"); ("description", PyStr "fish swims")].

Definition emptied : Server :=
  {| REQUESTS_TOTAL := 3;
     CPU_USAGE := S754_zero false; RAM_USAGE := S754_zero false;
     items := [] |}.

(** Arguments that have the key and bind it to None. *)
Definition null_name : list (string * pyval) :=
  [("name", PyNone); ("description", PyStr "none")].

Definition null_id : list (string * pyval) := [("id", PyNone)].

(** The store after [add] was sent the name 5. *)
Definition five_added : list Item :=
  (add (PyDict [("name", PyInt 5); ("description", PyStr "five")])
     example_data).2.

(** The store after the last item was deleted and "fish" added. *)
Definition readded : list Item :=
  (add (PyDict fish)
     (@delete sample_runtime (PyDict [("id", PyInt 1002)])
        example_data).2).2.

Definition no_load : Psutil :=
  {| cpu_percent := S754_zero false;
     virtual_memory_percent := S754_zero false |}.

(** GET /health on the process as started. *)
Definition health_served : result Response * Server :=
  @do_GET sample_runtime (@api sample_runtime) no_load
    {| get_path := Returns "/health"; get_query := [] |} initial.

(** A POST whose target [urlparse] rejects, sent with a content type that
    is not the JSON one. *)
Definition malformed_target : PostRequest :=
  {| post_path := Raises (ValueError "Invalid IPv6 URL");
     content_type := Some "text/plain";
     read_json := Returns (PyDict fish) |}.

(** ** Vocabulary for whole requests *)

(** The five routes the decorators register. *)
Definition registered (method : Method) (path : string) : Prop :=
  match method with
  | GET => path = "/" ∨ path = "/list" ∨ path = "/search"
  | POST => path = "/add" ∨ path = "/delete"
  end.

(** The value is a dictionary, the only kind of value with [.get]. *)
Definition is_dict (v : pyval) : Prop := ∃ entries, v = PyDict entries.

(** The value can equal no integer: a string, a list or a dictionary. *)
Definition non_numeric (v : pyval) : Prop :=
  match v with
  | PyStr _ | PyList _ | PyDict _ => True
  | _ => False
  end.

(** [parse_qs(...).get(k)]: the values of a key of the query string. *)
Fixpoint query_get (k : string) (query : list (string * list string))
  : option (list string) :=
  match query with
  | [] => None
  | (k', vs) :: rest => if decide (k = k') then Some vs else query_get k rest
  end.

(** A request as [http.server] hands it to the handler object: a GET goes
    to [do_GET], with the readings [psutil] would give at that moment, a
    POST goes to [do_POST]. *)
Inductive Request : Type :=
  | GetReq (ps : Psutil) (req : GetRequest)
  | PostReq (req : PostRequest).

(** The request reaches [call_api]: its target was parsed, and it is a
    GET for a path other than /health and /metrics, or a POST with the
    JSON content type whose body was read and decoded. *)
Definition dispatched (r : Request) : bool :=
  match r with
  | GetReq _ req =>
      match get_path req with
      | Returns path => bool_decide (path ≠ "/health" ∧ path ≠ "/metrics")
      | Raises _ => false
      end
  | PostReq req =>
      match post_path req with
      | Returns _ =>
          bool_decide (content_type req = Some "application/json")
          && match read_json req with
             | Returns _ => true
             | Raises _ => false
             end
      | Raises _ => false
      end
  end.

Section Serving.
Context `{Runtime}.

(** The server state after one request, and after a sequence of them. *)
Definition serve (rt : API) (r : Request) (s : Server) : Server :=
  match r with
  | GetReq ps req => (do_GET rt ps req s).2
  | PostReq req => (do_POST rt req s).2
  end.

Definition serve_all (rt : API) (rs : list Request) (s : Server) : Server :=
  foldl (λ s r, serve rt r s) s rs.

End Serving.

(** POST /add with the "fish" arguments, as a request. *)
Definition post_fish : Request :=
  PostReq {| post_path := Returns "/add";
             content_type := Some "application/json";
             read_json := Returns (PyDict fish) |}.

(** The item [add] builds after the last item [l] from its arguments. *)
Definition new_item (l : Item) (entries : list (string * pyval)) : Item :=
  {| item_id := item_id l + 1;
     item_name := dict_get "name" entries;
     item_description := dict_get "description" entries |}.

(** POST /add and GET /list, as [do_POST] and [do_GET] see them. *)
Definition post_add (entries : list (string * pyval)) : PostRequest :=
  {| post_path := Returns "/add";
     content_type := Some "application/json";
     read_json := Returns (PyDict entries) |}.

Definition get_list : GetRequest :=
  {| get_path := Returns "/list"; get_query := [] |}.

(** * Properties *)

(** ** Running the monad *)

Ltac run :=
  unfold bind, ret, raise, lift, get_items, put_items; simpl.

Lemma dict_get_is_none (k : string) (entries : list (string * pyval)) :
  is_none (dict_get k entries) = true ↔
  assoc k entries = None ∨ assoc k entries = Some PyNone.
Proof.
  unfold dict_get. destruct (assoc k entries) as [v|]; simpl.
  - split.
    + destruct v; simpl; intros Hv; try discriminate. by right.
    + intros [Hv|Hv]; [discriminate|]. by inversion Hv.
  - split; [by left | done].
Qed.

Lemma last_item_run (st : list Item) :
  last_item st =
  match last st with
  | Some it => (Returns it, st)
  | None => (Raises IndexError, st)
  end.
Proof. unfold last_item. run. by destruct (last st). Qed.

Lemma last_empty {A} (l : list A) : last l = None → l = [].
Proof. destruct l as [|a l] using rev_ind; [done|]. by rewrite last_snoc. Qed.

(** ** [add] *)

(** What [add] does on a dictionary when the store has a last item. *)
Lemma add_run (entries : list (string * pyval)) (st : list Item) (l : Item) :
  last st = Some l →
  add (PyDict entries) st =
  if is_none (dict_get "name" entries)
     || is_none (dict_get "description" entries)
  then (Returns (error_payload "name and description are required"), st)
  else
    let item := {| item_id := item_id l + 1;
                   item_name := dict_get "name" entries;
                   item_description := dict_get "description" entries |} in
    (Returns (item_dict item), st ++ [item]).
Proof.
  intros Hl. unfold add, bind at 1. rewrite last_item_run, Hl.
  unfold py_get, append. run.
  by destruct (is_none (dict_get "name" entries)
               || is_none (dict_get "description" entries)).
Qed.

(** On an empty store [add] raises before it looks at its argument. *)
Lemma add_empty (args : pyval) : add args [] = (Raises IndexError, []).
Proof. reflexivity. Qed.

(** ** [delete] *)

Section DeleteLemmas.
Context `{Runtime}.

(** [remove] drops the object it is given at its own position when no
    earlier element has the same id: the comparison of two items fails on
    the key "id" already. *)
Lemma list_remove_at (pre : list Item) (it : Item) (post : list Item) :
  Forall (λ e, item_id e ≠ item_id it) pre →
  list_remove (length pre) it (pre ++ it :: post) = Returns (pre ++ post).
Proof.
  induction pre as [|e pre IH]; intros Hpre; simpl.
  - reflexivity.
  - apply Forall_cons in Hpre as [He Hpre].
    unfold item_eq. apply Z.eqb_neq in He. rewrite He. simpl.
    by rewrite IH.
Qed.

Lemma skipped_differs (given : pyval) (it : Item) (l : list Item) :
  py_int_eq (item_id it) given = true →
  skipped given l →
  Forall (λ e, item_id e ≠ item_id it) l.
Proof.
  intros Hit Hl. eapply Forall_impl; [exact Hl|].
  intros e He Heq. simpl in He. rewrite Heq in He. congruence.
Qed.

(** The loop, entered at position [length done] with [done] already
    skipped, finds the first matching item and removes exactly it. *)
Lemma delete_loop_found (given : pyval) (pre : list Item) (it : Item)
    (post done : list Item) :
  skipped given done →
  skipped given pre →
  py_int_eq (item_id it) given = true →
  delete_loop (length done) (pre ++ it :: post) given
    (done ++ pre ++ it :: post)
  = (Returns (PyDict [("deleted", given)]), done ++ pre ++ post).
Proof.
  revert done. induction pre as [|e pre IH]; intros done Hdone Hpre Hit.
  - simpl. rewrite Hit. unfold remove. run.
    rewrite list_remove_at by eauto using skipped_differs. done.
  - apply Forall_cons in Hpre as [He Hpre]. simpl. rewrite He.
    specialize (IH (done ++ [e])).
    rewrite length_app, Nat.add_1_r, <- !app_assoc in IH. simpl in IH.
    apply IH; [|done..].
    apply Forall_app. split; [done|]. by apply Forall_singleton.
Qed.

(** With no matching item the loop runs to the end and touches nothing. *)
Lemma delete_loop_missing (given : pyval) (pending : list Item) (pos : nat)
    (st : list Item) :
  skipped given pending →
  delete_loop pos pending given st
  = (Returns (error_payload ("item not found with id " +:+ py_str given)),
     st).
Proof.
  revert pos. induction pending as [|e pending IH]; intros pos Hp.
  - reflexivity.
  - apply Forall_cons in Hp as [He Hp]. simpl. rewrite He. by apply IH.
Qed.

(** Every list either has no matching item or splits at its first one. *)
Lemma first_match (given : pyval) (l : list Item) :
  skipped given l ∨
  ∃ pre it post, l = pre ++ it :: post ∧ skipped given pre
                 ∧ py_int_eq (item_id it) given = true.
Proof.
  induction l as [|e l IH].
  - left. apply Forall_nil_2.
  - destruct (py_int_eq (item_id e) given) eqn:He.
    + right. exists [], e, l. split; [done|].
      split; [apply Forall_nil_2 | done].
    + destruct IH as [IH | (pre & it & post & -> & Hpre & Hit)].
      * left. by apply Forall_cons.
      * right. exists (e :: pre), it, post. split; [done|].
        split; [by apply Forall_cons | done].
Qed.

(** What [delete] does on a dictionary. *)
Lemma delete_run (entries : list (string * pyval)) (st : list Item) :
  delete (PyDict entries) st =
  if is_none (dict_get "id" entries)
  then (Returns (error_payload "id parameter required"), st)
  else delete_loop 0 st (dict_get "id" entries) st.
Proof.
  unfold delete, py_get. run.
  by destruct (is_none (dict_get "id" entries)).
Qed.

(** Whatever its argument, [delete] leaves the store as it is or takes
    one item out of it. *)
Lemma delete_store (args : pyval) (st : list Item) :
  (delete args st).2 = st ∨
  ∃ pre it post, st = pre ++ it :: post ∧ (delete args st).2 = pre ++ post.
Proof.
  destruct args as [| | | | | |entries]; try (by left).
  rewrite delete_run.
  destruct (is_none (dict_get "id" entries)); [by left|].
  destruct (first_match (dict_get "id" entries) st)
    as [Hst | (pre & it & post & -> & Hpre & Hit)].
  - left. by rewrite delete_loop_missing.
  - right. exists pre, it, post. split; [done|].
    pose proof (delete_loop_found _ pre it post [] (Forall_nil_2 _) Hpre Hit)
      as Hrun.
    simpl in Hrun. by rewrite Hrun.
Qed.

End DeleteLemmas.

(** ** The routing table *)

Section Routes.
Context `{Runtime}.

Lemma route_index : routing api GET !! "/" = Some index.
Proof. reflexivity. Qed.
Lemma route_list : routing api GET !! "/list" = Some list_items.
Proof. reflexivity. Qed.
Lemma route_search : routing api GET !! "/search" = Some search.
Proof. reflexivity. Qed.
Lemma route_add : routing api POST !! "/add" = Some add.
Proof. reflexivity. Qed.
Lemma route_delete : routing api POST !! "/delete" = Some delete.
Proof. reflexivity. Qed.
Lemma route_nope : routing api GET !! "/nope" = None.
Proof. reflexivity. Qed.

End Routes.

(** * The specified behaviour *)

Lemma missing_is_none (k : string) (entries : list (string * pyval)) :
  missing k entries ↔ is_none (dict_get k entries) = true.
Proof. symmetry. apply dict_get_is_none. Qed.

Lemma not_missing_is_none (k : string) (entries : list (string * pyval)) :
  ¬ missing k entries ↔ is_none (dict_get k entries) = false.
Proof. rewrite missing_is_none. by destruct (is_none _). Qed.

(** C1, as amended: on every store that has a last item, and for every
    dictionary of arguments: when "name" or "description" is absent or
    bound to None, [add] returns the error payload and leaves the store as
    it was; otherwise it appends one item, whose id is the last item's id
    plus one and whose other fields are the two arguments, and returns
    that item. *)
Theorem add_on_nonempty_store (entries : list (string * pyval))
    (st : list Item) (l : Item) :
  last st = Some l →
  (missing "name" entries ∨ missing "description" entries →
   add (PyDict entries) st
   = (Returns (error_payload "name and description are required"), st))
  ∧ (¬ missing "name" entries → ¬ missing "description" entries →
     let item := {| item_id := item_id l + 1;
                    item_name := dict_get "name" entries;
                    item_description := dict_get "description" entries |} in
     add (PyDict entries) st = (Returns (item_dict item), st ++ [item])).
Proof.
  intros Hl. rewrite (add_run entries st l Hl). split.
  - rewrite !missing_is_none. intros [-> | ->]; [done|].
    by rewrite orb_true_r.
  - rewrite !not_missing_is_none. by intros -> ->.
Qed.

(** The instance of the test: "fish" on the three example items gets the
    id 1003. *)
Lemma add_on_nonempty_store_witness :
  last example_data
  = Some {| item_id := 1002; item_name := PyStr "bird";
            item_description := PyStr "bird is singing" |}
  ∧ add (PyDict fish) example_data
    = (Returns (item_dict {| item_id := 1003; item_name := PyStr "fish";
                             item_description := PyStr "fish swims" |}),
       example_data
       ++ [ {| item_id := 1003; item_name := PyStr "fish";
               item_description := PyStr "fish swims" |} ]).
Proof.
  split; [reflexivity|].
  refine (proj2 (add_on_nonempty_store fish example_data _ eq_refl) _ _);
    intros [Hm | Hm]; vm_compute in Hm; discriminate.
Defined.

(** C1 as stated fails twice.  On the empty store with a dictionary that
    lacks "name", [add] raises instead of returning the error payload; and
    a dictionary that has both keys, "name" bound to None, gets the error
    payload and nothing is appended. *)
Lemma add_claim_counterexample :
  (assoc "name" [] = None
   ∧ add (PyDict []) []
     ≠ (Returns (error_payload "name and description are required"), []))
  ∧ (is_Some (assoc "name" null_name)
     ∧ is_Some (assoc "description" null_name)
     ∧ add (PyDict null_name) example_data
       = (Returns (error_payload "name and description are required"),
          example_data)).
Proof.
  split; [split; [reflexivity | discriminate]|].
  split; [by eexists|]. split; [by eexists | reflexivity].
Qed.

Section EmptyStore.
Context `{Runtime}.

(** C9: when the store is empty, [add] raises (an IndexError, from reading
    the last item) for every argument, a dictionary without "name" or
    "description" included, and leaves the store empty; [call_api] answers
    POST /add with status 500 and the exception's text.  On a non-empty
    store [add] returns for every dictionary. *)
Theorem add_on_empty_store (args : pyval) (s : Server) :
  items s = [] →
  add args (items s) = (Raises IndexError, [])
  ∧ call_api api POST "/add" args s
    = ({| status := 500; headers := [];
          body := JsonBody (error_payload (str_exn IndexError)) |},
       inc s)
  ∧ (∀ (entries : list (string * pyval)) (st : list Item),
       st ≠ [] → ∃ v st', add (PyDict entries) st = (Returns v, st')).
Proof.
  intros Hs. split; [by rewrite Hs|]. split.
  - unfold call_api. rewrite route_add. simpl. rewrite Hs. simpl.
    unfold with_items, inc. simpl. by rewrite Hs.
  - intros entries st Hst. destruct (last st) as [l|] eqn:Hl.
    + rewrite (add_run entries st l Hl).
      destruct (_ || _); eauto.
    + by apply last_empty in Hl.
Qed.

End EmptyStore.

Lemma add_on_empty_store_witness :
  items emptied = []
  ∧ add (PyDict []) (items emptied) = (Raises IndexError, [])
  ∧ (@call_api sample_runtime (@api sample_runtime) POST "/add" (PyDict [])
       emptied).1
    = {| status := 500; headers := [];
         body := JsonBody (error_payload "list index out of range") |}.
Proof.
  split; [reflexivity|].
  destruct (@add_on_empty_store sample_runtime (PyDict []) emptied eq_refl)
    as (Hadd & Hcall & _).
  split; [exact Hadd|]. rewrite Hcall. reflexivity.
Defined.

Section Delete.
Context `{Runtime}.

(** C3, as amended: for every store and every dictionary of arguments:
    when "id" is absent or bound to None, [delete] returns the payload
    "id parameter required" and leaves the store as it was; otherwise it
    takes the first item, in store order, whose integer id equals the
    given value under [==] (a string never does, a float or a bool of the
    same numeric value does), removes exactly that item and returns
    [{"deleted": id}]; when no item's id equals it, it returns the payload
    "item not found with id ..." and leaves the store as it was. *)
Theorem delete_spec (entries : list (string * pyval)) (st : list Item) :
  let given := dict_get "id" entries in
  (missing "id" entries →
   delete (PyDict entries) st
   = (Returns (error_payload "id parameter required"), st))
  ∧ (¬ missing "id" entries →
     ∀ pre it post,
       st = pre ++ it :: post →
       skipped given pre →
       py_int_eq (item_id it) given = true →
       delete (PyDict entries) st
       = (Returns (PyDict [("deleted", given)]), pre ++ post))
  ∧ (¬ missing "id" entries →
     skipped given st →
     delete (PyDict entries) st
     = (Returns (error_payload ("item not found with id " +:+ py_str given)),
        st)).
Proof.
  intros given. subst given. rewrite delete_run. split; [|split].
  - rewrite missing_is_none. by intros ->.
  - rewrite not_missing_is_none. intros -> pre it post -> Hpre Hit.
    pose proof (delete_loop_found _ pre it post []
                  (Forall_nil_2 _) Hpre Hit) as Hrun.
    exact Hrun.
  - rewrite not_missing_is_none. intros -> Hst.
    by apply delete_loop_missing.
Qed.

End Delete.

(** The two tests of [delete] on the example data. *)
Example delete_1000 :
  @delete sample_runtime (PyDict [("id", PyInt 1000)]) example_data
  = (Returns (PyDict [("deleted", PyInt 1000)]),
     [ {| item_id := 1001; item_name := PyStr "dog";
          item_description := PyStr "dog is barking" |};
       {| item_id := 1002; item_name := PyStr "bird";
          item_description := PyStr "bird is singing" |} ]).
Proof. reflexivity. Qed.

Example delete_9999 :
  @delete sample_runtime (PyDict [("id", PyInt 9999)]) example_data
  = (Returns (error_payload "item not found with id 9999"), example_data).
Proof. reflexivity. Qed.

(** The comparison is Python's: the string "1000" finds nothing, the
    float 1000.0 finds the item 1000. *)
Example delete_string_id :
  @delete sample_runtime (PyDict [("id", PyStr "1000")]) example_data
  = (Returns (error_payload "item not found with id 1000"), example_data).
Proof. reflexivity. Qed.

Example delete_float_id :
  (@delete sample_runtime
     (PyDict [("id", PyFloat (S754_finite false 125 3))]) example_data).2
  = [ {| item_id := 1001; item_name := PyStr "dog";
         item_description := PyStr "dog is barking" |};
      {| item_id := 1002; item_name := PyStr "bird";
         item_description := PyStr "bird is singing" |} ].
Proof. reflexivity. Qed.

Lemma delete_spec_witness :
  @delete sample_runtime (PyDict [("id", PyInt 1001)]) example_data
  = (Returns (PyDict [("deleted", PyInt 1001)]),
     [ {| item_id := 1000; item_name := PyStr "cat";
          item_description := PyStr "cat is meowing" |};
       {| item_id := 1002; item_name := PyStr "bird";
          item_description := PyStr "bird is singing" |} ]).
Proof.
  refine (proj1 (proj2 (@delete_spec sample_runtime
                          [("id", PyInt 1001)] example_data))
            _
            [ {| item_id := 1000; item_name := PyStr "cat";
                 item_description := PyStr "cat is meowing" |} ]
            {| item_id := 1001; item_name := PyStr "dog";
               item_description := PyStr "dog is barking" |}
            [ {| item_id := 1002; item_name := PyStr "bird";
                 item_description := PyStr "bird is singing" |} ]
            eq_refl _ eq_refl).
  - intros [Hm | Hm]; vm_compute in Hm; discriminate.
  - apply Forall_singleton. reflexivity.
Defined.

(** C3 as stated fails on a dictionary that has the key "id" bound to
    None: no item's id equals None, yet the answer is not "item not found
    with id None" but "id parameter required". *)
Lemma delete_claim_counterexample :
  is_Some (assoc "id" null_id)
  ∧ skipped PyNone example_data
  ∧ (@delete sample_runtime (PyDict null_id) example_data).1
    ≠ Returns (error_payload "item not found with id None")
  ∧ @delete sample_runtime (PyDict null_id) example_data
    = (Returns (error_payload "id parameter required"), example_data).
Proof.
  split; [by eexists|]. split.
  - repeat (apply Forall_cons; split; [reflexivity|]). apply Forall_nil_2.
  - split; [discriminate | reflexivity].
Qed.

(** ** The store under any sequence of [add] and [delete] calls *)

Lemma ascending_example_data : ascending example_data.
Proof.
  unfold ascending, example_data.
  repeat (apply StronglySorted_cons; split;
          [repeat (apply Forall_cons; split; [simpl; lia|]);
           apply Forall_nil_2|]).
  constructor.
Qed.

Lemma ascending_last (st : list Item) (l : Item) :
  ascending st → last st = Some l →
  ∀ e, e ∈ st → item_id e ≤ item_id l.
Proof.
  intros Hst Hl e He.
  destruct st as [|x st'] using rev_ind; [done|].
  rewrite last_snoc in Hl. inversion Hl; subst.
  apply elem_of_app in He as [He | He].
  - apply Z.lt_le_incl.
    apply (StronglySorted_app_1_elem_of _ _ _ _ _ Hst He).
    by apply list_elem_of_singleton.
  - apply list_elem_of_singleton in He. by subst.
Qed.

Lemma ascending_snoc (st : list Item) (l it : Item) :
  ascending st → last st = Some l → item_id it = item_id l + 1 →
  ascending (st ++ [it]).
Proof.
  intros Hst Hl Hit. apply StronglySorted_app_2; [|done|].
  - intros x1 x2 Hx1 Hx2. apply list_elem_of_singleton in Hx2. subst x2.
    pose proof (ascending_last st l Hst Hl x1 Hx1). lia.
  - apply StronglySorted_cons. split; [apply Forall_nil_2 | constructor].
Qed.

Lemma ascending_remove (pre : list Item) (it : Item) (post : list Item) :
  ascending (pre ++ it :: post) → ascending (pre ++ post).
Proof.
  unfold ascending. rewrite !StronglySorted_app, StronglySorted_cons.
  intros (Hcross & Hpre & _ & Hpost). split; [|done].
  intros x1 x2 Hx1 Hx2. apply Hcross; [done|]. by apply list_elem_of_further.
Qed.

Lemma ascending_NoDup (st : list Item) :
  ascending st → NoDup (item_id <$> st).
Proof.
  induction 1 as [|x st Hst IH Hx]; simpl; constructor; [|done].
  intros Hin. apply list_elem_of_fmap in Hin as (y & Hy & Hin).
  rewrite Forall_forall in Hx. specialize (Hx y Hin). lia.
Qed.

(** Whatever its argument, [add] leaves the store as it is or appends one
    item, whose id is the last id plus one. *)
Lemma add_store (args : pyval) (st : list Item) :
  (add args st).2 = st ∨
  ∃ l it, last st = Some l ∧ item_id it = item_id l + 1
          ∧ (add args st).2 = st ++ [it].
Proof.
  destruct (last st) as [l|] eqn:Hl.
  - destruct args as [| | | | | |entries];
      try (left; unfold add, bind at 1; rewrite last_item_run, Hl; done).
    rewrite (add_run entries st l Hl).
    destruct (_ || _); [by left|]. right. eexists l, _.
    split; [done|]. split; [|reflexivity]. reflexivity.
  - left. apply last_empty in Hl. by subst.
Qed.

Section Reachable.
Context `{Runtime}.

Lemma reachable_ascending (st : list Item) : reachable st → ascending st.
Proof.
  induction 1 as [|args st _ IH|args st _ IH].
  - apply ascending_example_data.
  - destruct (add_store args st) as [-> | (l & it & Hl & Hit & ->)];
      eauto using ascending_snoc.
  - destruct (delete_store args st)
      as [-> | (pre & it & post & Hst & ->)]; [done|].
    subst st. by eapply ascending_remove.
Qed.

(** C2: in every store reachable from the example data by calls of [add]
    and [delete], the ids are pairwise distinct; and a call of [add]
    leaves the store as it is or puts one item after it, a call of
    [delete] leaves it as it is or takes one item out, the others keeping
    their order. *)
Theorem store_invariant (st : list Item) :
  reachable st →
  NoDup (item_id <$> st)
  ∧ (∀ args, (add args st).2 = st ∨ ∃ it, (add args st).2 = st ++ [it])
  ∧ (∀ args, (delete args st).2 = st
             ∨ ∃ pre it post, st = pre ++ it :: post
                              ∧ (delete args st).2 = pre ++ post).
Proof.
  intros Hst. split; [|split].
  - by apply ascending_NoDup, reachable_ascending.
  - intros args.
    destruct (add_store args st) as [? | (l & it & _ & _ & ?)]; eauto.
  - intros args. apply delete_store.
Qed.

End Reachable.

(** A store reached by deleting the last item and adding again: the id
    1002 is given out a second time, and is still the only 1002. *)
Lemma store_invariant_witness :
  item_id <$> readded = [1000; 1001; 1002]
  ∧ @reachable sample_runtime readded
  ∧ NoDup (item_id <$> readded).
Proof.
  split; [reflexivity|].
  assert (@reachable sample_runtime readded) as Hst
    by (apply reachable_add, reachable_delete, reachable_start).
  split; [exact Hst|].
  exact (proj1 (@store_invariant sample_runtime readded Hst)).
Defined.

(** ** [search] *)

Lemma append_String (a : Ascii.ascii) (s t : string) :
  String a s +:+ t = String a (s +:+ t).
Proof. reflexivity. Qed.

Lemma starts_with_spec (q s : string) :
  starts_with q s = true ↔ ∃ post, s = q +:+ post.
Proof.
  revert s. induction q as [|a q IH]; intros s; simpl.
  - split; [by exists s | done].
  - destruct s as [|b s]; simpl.
    + split; [done | by intros [? ?]].
    + destruct (decide (a = b)) as [->|Hab].
      * rewrite IH. split; intros [post Hpost]; exists post;
          rewrite append_String in *; congruence.
      * split; [done|]. intros [post Hpost].
        rewrite append_String in Hpost. congruence.
Qed.

Lemma str_contains_spec (q s : string) :
  str_contains q s = true ↔ substring_of q s.
Proof.
  unfold substring_of. induction s as [|b s IH]; simpl.
  - rewrite orb_false_r, starts_with_spec. split.
    + intros [post Hpost]. by exists "", post.
    + intros ([|? ?] & post & Hpost); [by exists post | done].
  - rewrite orb_true_iff, starts_with_spec, IH. split.
    + intros [[post Hpost] | (pre & post & ->)].
      * by exists "", post.
      * by exists (String b pre), post.
    + intros ([|a pre] & post & Hpost).
      * left. by exists post.
      * right. exists pre, post. rewrite append_String in Hpost. congruence.
Qed.

Section Search.
Context `{Runtime}.

Lemma comprehension_strings (q : string) (l st : list Item) :
  string_names l →
  comprehension (PyStr q) l st = (Returns (filter (name_contains q) l), st).
Proof.
  induction 1 as [|it l [s Hs] _ IH]; [done|].
  simpl. unfold bind at 1. unfold lift. rewrite Hs. simpl.
  unfold bind at 1. rewrite IH. unfold ret.
  rewrite filter_cons. destruct (decide (name_contains q it)) as [Hq | Hq];
    unfold name_contains in Hq; rewrite Hs in Hq.
  - apply str_contains_spec in Hq. by rewrite Hq.
  - destruct (str_contains q s) eqn:Hb; [|done].
    destruct Hq. by apply str_contains_spec.
Qed.

(** C4, as amended: for every dictionary of arguments: when "q" is
    absent, [search] returns the payload "q parameter required"; when "q"
    is a string and every item's name in the store is a string, it returns
    exactly the items whose name contains q as a substring (compared
    character by character, so case matters), in store order, with their
    number as count.  The store is not changed. *)
Theorem search_spec (entries : list (string * pyval)) (st : list Item) :
  (assoc "q" entries = None →
   search (PyDict entries) st
   = (Returns (error_payload "q parameter required"), st))
  ∧ (∀ q : string,
       assoc "q" entries = Some (PyStr q) →
       string_names st →
       let results := filter (name_contains q) st in
       search (PyDict entries) st
       = (Returns (PyDict [("count", PyInt (Z.of_nat (length results)));
                           ("items", PyList (item_dict <$> results))]),
          st)).
Proof.
  unfold search, py_get, dict_get. split.
  - by intros ->.
  - intros q -> Hst. run. by rewrite comprehension_strings.
Qed.

End Search.

(** "ca" on the example data: one item, the cat. *)
Lemma search_spec_witness :
  string_names example_data
  ∧ @search sample_runtime (PyDict [("q", PyStr "ca")]) example_data
    = (Returns
         (PyDict [("count", PyInt 1);
                  ("items",
                   PyList [item_dict {| item_id := 1000;
                                        item_name := PyStr "cat";
                                        item_description :=
                                          PyStr "cat is meowing" |}])]),
       example_data).
Proof.
  assert (string_names example_data) as Hnames
    by (repeat (apply Forall_cons; split; [by eexists|]); apply Forall_nil_2).
  split; [exact Hnames|].
  exact (proj2 (@search_spec sample_runtime [("q", PyStr "ca")] example_data)
           "ca" eq_refl Hnames).
Defined.

(** C4 as stated fails on a store that holds an item whose name is not a
    string, such as [add] leaves when it is sent the name 5: the search
    for "ca" raises a TypeError at that item and returns nothing. *)
Lemma search_claim_counterexample :
  item_name <$> five_added
  = [PyStr "cat"; PyStr "dog"; PyStr "bird"; PyInt 5]
  ∧ assoc "q" [("q", PyStr "ca")] = Some (PyStr "ca")
  ∧ @search sample_runtime (PyDict [("q", PyStr "ca")]) five_added
    = (Raises (TypeError (PyInt 5)), five_added).
Proof. split; [|split]; reflexivity. Qed.

(** ** [list_items] and repeated [add] *)

Lemma add_created_length (args : pyval) (st mid : list Item) (it : Item) :
  add args st = (Returns (item_dict it), mid) →
  length mid = S (length st).
Proof.
  destruct (last st) as [l|] eqn:Hl.
  - destruct args as [| | | | | |entries];
      try (unfold add, bind at 1; rewrite last_item_run, Hl; discriminate).
    rewrite (add_run entries st l Hl).
    destruct (_ || _); [discriminate|].
    intros Heq. apply (f_equal snd) in Heq. simpl in Heq. subst mid.
    rewrite length_app. simpl. lia.
  - apply last_empty in Hl. subst. discriminate.
Qed.

Lemma successful_adds_length (requests : list pyval) (st st' : list Item) :
  successful_adds requests st st' →
  length st' = (length st + length requests)%nat.
Proof.
  revert st. induction requests as [|args rest IH]; intros st; simpl.
  - intros ->. lia.
  - intros (it & mid & Hadd & Hrest).
    apply add_created_length in Hadd. apply IH in Hrest. lia.
Qed.

(** Such runs exist: on a store that is not empty, any dictionaries with
    a name and a description are added one after the other. *)
Lemma successful_adds_exist (requests : list (list (string * pyval)))
    (st : list Item) :
  st ≠ [] →
  Forall (λ entries, ¬ missing "name" entries
                     ∧ ¬ missing "description" entries) requests →
  ∃ st', successful_adds (PyDict <$> requests) st st'.
Proof.
  intros Hst Hreq. revert st Hst.
  induction Hreq as [|entries rest [Hn Hd] _ IH]; intros st Hst; simpl.
  - by exists st.
  - destruct (last st) as [l|] eqn:Hl; [|by apply last_empty in Hl].
    pose proof (add_run entries st l Hl) as Hadd.
    apply not_missing_is_none in Hn, Hd. rewrite Hn, Hd in Hadd.
    simpl in Hadd.
    destruct (IH (st ++ [ {| item_id := item_id l + 1;
                            item_name := dict_get "name" entries;
                            item_description :=
                              dict_get "description" entries |} ]))
      as [st' Hst']; [by destruct st|].
    exists st'. eauto.
Qed.

(** C5: for every store, [list_items] returns the number of items of the
    store as count and all of them, in store order, as items; and after N
    calls of [add] that each returned the created item, [list_items]
    returns a count that is N more. *)
Theorem list_items_count (args : pyval) (st : list Item) :
  list_items args st
  = (Returns (PyDict [("count", PyInt (Z.of_nat (length st)));
                      ("items", PyList (item_dict <$> st))]), st)
  ∧ ∀ (requests : list pyval) (st' : list Item) (args' : pyval),
      successful_adds requests st st' →
      list_items args' st'
      = (Returns
           (PyDict [("count",
                     PyInt (Z.of_nat (length st)
                            + Z.of_nat (length requests)));
                    ("items", PyList (item_dict <$> st'))]), st').
Proof.
  split; [reflexivity|].
  intros requests st' args' Hrun. unfold list_items. run.
  apply successful_adds_length in Hrun. rewrite Hrun.
  by rewrite Nat2Z.inj_add.
Qed.

Lemma list_items_count_witness :
  ∃ st',
    successful_adds [PyDict fish; PyDict fish] example_data st'
    ∧ list_items PyNone example_data
      = (Returns (PyDict [("count", PyInt 3);
                          ("items", PyList (item_dict <$> example_data))]),
         example_data)
    ∧ list_items PyNone st'
      = (Returns (PyDict [("count", PyInt 5);
                          ("items", PyList (item_dict <$> st'))]), st').
Proof.
  eexists.
  assert (successful_adds [PyDict fish; PyDict fish] example_data
            (example_data
             ++ [ {| item_id := 1003; item_name := PyStr "fish";
                     item_description := PyStr "fish swims" |};
                  {| item_id := 1004; item_name := PyStr "fish";
                     item_description := PyStr "fish swims" |} ]))
    as Hrun.
  { exists {| item_id := 1003; item_name := PyStr "fish";
              item_description := PyStr "fish swims" |},
      (example_data
       ++ [ {| item_id := 1003; item_name := PyStr "fish";
               item_description := PyStr "fish swims" |} ]).
    split; [reflexivity|].
    exists {| item_id := 1004; item_name := PyStr "fish";
              item_description := PyStr "fish swims" |},
      (example_data
       ++ [ {| item_id := 1003; item_name := PyStr "fish";
               item_description := PyStr "fish swims" |};
            {| item_id := 1004; item_name := PyStr "fish";
               item_description := PyStr "fish swims" |} ]).
    split; reflexivity. }
  split; [exact Hrun|]. split; [reflexivity|].
  exact (proj2 (list_items_count PyNone example_data) _ _ PyNone Hrun).
Defined.

(** ** The dispatcher and the two entry points *)

Section Dispatch.
Context `{Runtime}.

Lemma call_api_counter (rt : API) (method : Method) (path : string)
    (args : pyval) (s : Server) :
  REQUESTS_TOTAL (call_api rt method path args s).2 = REQUESTS_TOTAL s + 1.
Proof.
  unfold call_api. destruct (routing rt method !! path) as [fn|]; [|done].
  simpl. by destruct (fn args (items s)) as [[result | e] l].
Qed.

(** C6, as amended: every call of [call_api], whatever the table, the
    method, the path and the arguments, and whether it ends in 200, 404 or
    500, raises the request counter by exactly one.  So does every GET
    request for a path other than /health and /metrics.  A GET request for
    /health or /metrics, and a POST request whose content type is not
    application/json, leave the counter as it was. *)
Theorem request_counter (rt : API) (ps : Psutil) (s : Server) :
  (∀ method path args,
     REQUESTS_TOTAL (call_api rt method path args s).2
     = REQUESTS_TOTAL s + 1)
  ∧ (∀ req path, get_path req = Returns path →
                 path ≠ "/health" → path ≠ "/metrics" →
                 REQUESTS_TOTAL (do_GET rt ps req s).2
                 = REQUESTS_TOTAL s + 1)
  ∧ (∀ req, get_path req = Returns "/health"
            ∨ get_path req = Returns "/metrics" →
            REQUESTS_TOTAL (do_GET rt ps req s).2 = REQUESTS_TOTAL s)
  ∧ (∀ req, content_type req ≠ Some "application/json" →
            REQUESTS_TOTAL (do_POST rt req s).2 = REQUESTS_TOTAL s).
Proof.
  split; [|split; [|split]].
  - intros. apply call_api_counter.
  - intros req path Hp Hh Hm. unfold do_GET.
    rewrite Hp, !decide_False by done.
    pose proof (call_api_counter rt GET path
                  (unwrap_single (get_query req)) s) as Hc.
    by destruct (call_api rt GET path (unwrap_single (get_query req)) s).
  - intros req [Hp | Hp]; unfold do_GET; rewrite Hp; reflexivity.
  - intros req Hct. unfold do_POST.
    destruct (post_path req); [|done]. by rewrite decide_True.
Qed.

(** C7, as amended: for every POST request whose target [urlparse]
    accepts and whose content-type header is missing or is not exactly
    "application/json", whatever the path, the body and the routing table,
    [do_POST] answers 400 with the JSON error payload, and the server
    state, store and counter, is what it was: no handler ran, and what
    reading and decoding the body would give plays no part. *)
Theorem do_POST_wrong_content_type (rt : API) (req : PostRequest)
    (s : Server) (path : string) :
  post_path req = Returns path →
  content_type req ≠ Some "application/json" →
  do_POST rt req s = (Returns bad_content_type, s).
Proof. intros Hp Hct. unfold do_POST. by rewrite Hp, decide_True. Qed.

(** C8: for every routing table, method and path with no handler
    registered under that method and path, [call_api] answers 404 with the
    body [{"error": "not found"}]; the store is what it was and only the
    request counter has moved.  The handlers of the table play no part. *)
Theorem call_api_not_found (rt : API) (method : Method) (path : string)
    (args : pyval) (s : Server) :
  routing rt method !! path = None →
  call_api rt method path args s = (not_found, inc s)
  ∧ items (call_api rt method path args s).2 = items s.
Proof. intros Hrt. unfold call_api, M in *. by rewrite Hrt. Qed.

Lemma comprehension_store (q : pyval) (l st : list Item) :
  (comprehension q l st).2 = st.
Proof.
  induction l as [|it l IH]; [done|].
  simpl. unfold bind at 1. unfold lift.
  destruct (py_in q (item_name it)) as [keep | e]; [|done].
  unfold bind at 1. destruct (comprehension q l st) as [[r | e] st']; done.
Qed.

(** C10: [index], [list_items] and [search] leave the store as it was,
    for every store and every argument, whether they return or raise; and
    so does a GET request dispatched to "/", "/list" or "/search". *)
Theorem get_handlers_preserve_store (args : pyval) (st : list Item) :
  (index args st).2 = st
  ∧ (list_items args st).2 = st
  ∧ (search args st).2 = st
  ∧ ∀ (s : Server) (path : string),
      items s = st →
      path = "/" ∨ path = "/list" ∨ path = "/search" →
      items (call_api api GET path args s).2 = st.
Proof.
  assert ((search args st).2 = st) as Hsearch.
  { destruct args as [| | | | | |entries]; try done.
    unfold search, py_get. run.
    destruct (is_none (dict_get "q" entries)); [done|].
    pose proof (comprehension_store (dict_get "q" entries) st st) as Hc.
    by destruct (comprehension _ st st) as [[r | e] st']. }
  split; [done|]. split; [done|]. split; [done|].
  intros s path <- [-> | [-> | ->]]; unfold call_api.
  - by rewrite route_index.
  - by rewrite route_list.
  - rewrite route_search. simpl.
    by destruct (search args (items s)) as [[r | e] st'].
Qed.

End Dispatch.

Lemma request_counter_witness :
  REQUESTS_TOTAL
    (@do_GET sample_runtime (@api sample_runtime)
       no_load
       {| get_path := Returns "/list"; get_query := [] |} initial).2 = 1
  ∧ REQUESTS_TOTAL
      (@do_GET sample_runtime (@api sample_runtime)
         no_load
         {| get_path := Returns "/metrics"; get_query := [] |} initial).2
    = 0.
Proof.
  pose proof (@request_counter sample_runtime (@api sample_runtime)
                no_load initial)
    as (_ & Hget & Hbypass & _).
  split.
  - exact (Hget {| get_path := Returns "/list"; get_query := [] |} "/list"
             eq_refl ltac:(discriminate) ltac:(discriminate)).
  - exact (Hbypass {| get_path := Returns "/metrics"; get_query := [] |}
             (or_intror eq_refl)).
Defined.

(** C6 as stated fails on GET /health: the request is answered and the
    counter has not moved. *)
Lemma request_counter_counterexample :
  health_served.1
  = Returns {| status := 200; headers := []; body := RawBody "OK" |}
  ∧ REQUESTS_TOTAL health_served.2 = REQUESTS_TOTAL initial
  ∧ REQUESTS_TOTAL health_served.2 ≠ REQUESTS_TOTAL initial + 1.
Proof. split; [reflexivity|]. split; [reflexivity | discriminate]. Qed.

(** POST /add with "text/plain", whose body cannot even be decoded. *)
Lemma do_POST_wrong_content_type_witness :
  Some "text/plain" ≠ Some "application/json"
  ∧ @do_POST sample_runtime (@api sample_runtime)
      {| post_path := Returns "/add"; content_type := Some "text/plain";
         read_json := Raises (ValueError "Expecting value") |} initial
    = (Returns bad_content_type, initial).
Proof.
  split; [discriminate|].
  apply (@do_POST_wrong_content_type sample_runtime _ _ _ "/add").
  - reflexivity.
  - simpl. discriminate.
Defined.

(** C7 as stated fails on a POST whose target [urlparse] rejects, such as
    "http://[/add": the ValueError of line 95 comes before the test of
    the content type, so with the content type "text/plain" no 400 is
    answered, the exception leaves [do_POST]. *)
Lemma do_POST_claim_counterexample :
  content_type malformed_target ≠ Some "application/json"
  ∧ @do_POST sample_runtime (@api sample_runtime) malformed_target initial
    = (Raises (ValueError "Invalid IPv6 URL"), initial)
  ∧ (@do_POST sample_runtime (@api sample_runtime) malformed_target
       initial).1
    ≠ Returns bad_content_type.
Proof. split; [discriminate|]. split; [reflexivity | discriminate]. Qed.

(** GET /nope on the program's own table. *)
Lemma call_api_not_found_witness :
  routing (@api sample_runtime) GET !! "/nope" = None
  ∧ @do_GET sample_runtime (@api sample_runtime) no_load
      {| get_path := Returns "/nope"; get_query := [] |} initial
    = (Returns not_found, inc initial).
Proof.
  split; [reflexivity|].
  change (@do_GET sample_runtime (@api sample_runtime) no_load
            {| get_path := Returns "/nope"; get_query := [] |} initial)
    with (let '(r, s') :=
            @call_api sample_runtime (@api sample_runtime) GET "/nope"
              (PyDict []) initial in
          (Returns r, s')).
  by rewrite (proj1 (@call_api_not_found sample_runtime
                       (@api sample_runtime) GET "/nope" (PyDict [])
                       initial eq_refl)).
Defined.

Lemma get_handlers_preserve_store_witness :
  items (@call_api sample_runtime (@api sample_runtime) GET "/search"
           (PyDict [("q", PyStr "o")]) initial).2 = example_data.
Proof.
  exact (proj2 (proj2 (proj2 (@get_handlers_preserve_store sample_runtime
                                (PyDict [("q", PyStr "o")]) example_data)))
           initial "/search" eq_refl (or_intror (or_intror eq_refl))).
Defined.

(** * Further properties of the code *)

(** ** The routing table *)

Section Table.
Context `{Runtime}.

Lemma routing_api_GET (path : string) :
  routing api GET !! path =
  if decide (path = "/search") then Some search
  else if decide (path = "/list") then Some list_items
  else if decide (path = "/") then Some index
  else None.
Proof.
  unfold api, post, get, API_init. simpl. unfold M.
  repeat (rewrite lookup_insert; case_decide; subst;
          [by repeat (rewrite decide_True by done
                      || rewrite decide_False by done)|]).
  rewrite lookup_empty.
  by rewrite !decide_False by done.
Qed.

Lemma routing_api_POST (path : string) :
  routing api POST !! path =
  if decide (path = "/delete") then Some delete
  else if decide (path = "/add") then Some add
  else None.
Proof.
  unfold api, post, get, API_init. simpl. unfold M.
  repeat (rewrite lookup_insert; case_decide; subst;
          [by repeat (rewrite decide_True by done
                      || rewrite decide_False by done)|]).
  rewrite lookup_empty.
  by rewrite !decide_False by done.
Qed.

(** Registration (lines 116-124): after [@api.get(path)] the GET table
    answers [path] with the function just given, whatever was there
    before, every other GET path with what it had, and the POST table is
    untouched; likewise, with the methods exchanged, for [@api.post]. *)
Theorem register_then_lookup (self : API) (path : string)
    (fn : pyval → M pyval) :
  routing (get path fn self) GET !! path = Some fn
  ∧ (∀ p, p ≠ path →
          routing (get path fn self) GET !! p = routing self GET !! p)
  ∧ routing (get path fn self) POST = routing self POST
  ∧ routing (post path fn self) POST !! path = Some fn
  ∧ (∀ p, p ≠ path →
          routing (post path fn self) POST !! p = routing self POST !! p)
  ∧ routing (post path fn self) GET = routing self GET.
Proof.
  unfold get, post, M. simpl. repeat split.
  - apply lookup_insert_eq.
  - intros p Hp. by apply lookup_insert_ne.
  - apply lookup_insert_eq.
  - intros p Hp. by apply lookup_insert_ne.
Qed.

Lemma call_api_404 (rt : API) (method : Method) (path : string)
    (args : pyval) (s : Server) :
  status (call_api rt method path args s).1 = 404
  ↔ routing rt method !! path = None.
Proof.
  unfold call_api. destruct (routing rt method !! path) as [fn|]; [|done].
  simpl. destruct (fn args (items s)) as [[v | e] l]; simpl;
    split; discriminate.
Qed.

(** The program's table holds the five routes and nothing else: a lookup
    succeeds exactly for GET "/", "/list", "/search" and POST "/add",
    "/delete"; so [call_api] answers 404 exactly for every other pair,
    such as a registered path under the other method or with a trailing
    slash. *)
Theorem not_found_iff_unregistered (method : Method) (path : string)
    (args : pyval) (s : Server) :
  (is_Some (routing api method !! path) ↔ registered method path)
  ∧ (status (call_api api method path args s).1 = 404
     ↔ ¬ registered method path).
Proof.
  assert (is_Some (routing api method !! path) ↔ registered method path)
    as Hreg.
  { destruct method; unfold registered.
    - rewrite routing_api_GET.
      repeat (case_decide; [split; [tauto | by eexists]|]).
      split; [by intros [? ?] | tauto].
    - rewrite routing_api_POST.
      repeat (case_decide; [split; [tauto | by eexists]|]).
      split; [by intros [? ?] | tauto]. }
  split; [done|].
  rewrite call_api_404, <- Hreg, eq_None_not_Some. done.
Qed.

End Table.

(** ** How the handlers end *)

Lemma call_api_route `{Runtime} (rt : API) (method : Method) (path : string)
    (fn : pyval → M pyval) (args : pyval) (s : Server) :
  routing rt method !! path = Some fn →
  call_api rt method path args s =
  match fn args (items s) with
  | (Returns v, l) =>
      ({| status := 200; headers := []; body := JsonBody v |},
       with_items (inc s) l)
  | (Raises e, l) =>
      ({| status := 500; headers := [];
          body := JsonBody (error_payload (str_exn e)) |},
       with_items (inc s) l)
  end.
Proof. intros Hfn. unfold call_api, M in *. by rewrite Hfn. Qed.

Lemma not_dict_get (args : pyval) (key : string) (st : list Item) :
  ¬ is_dict args → py_get args key st = (Raises (AttributeError args), st).
Proof.
  intros Hd. destruct args; try done. destruct Hd. by eexists.
Qed.

Lemma add_raises (args : pyval) (st st' : list Item) (e : exn) :
  add args st = (Raises e, st') →
  st' = st ∧ (st = [] ∨ ¬ is_dict args).
Proof.
  destruct (last st) as [l|] eqn:Hl.
  - destruct args as [| | | | | |entries];
      try (unfold add, bind at 1; rewrite last_item_run, Hl;
           intros [= _ <-]; split; [done|]; right; by intros [? ?]).
    rewrite (add_run entries st l Hl). by destruct (_ || _).
  - apply last_empty in Hl. subst. intros [= _ <-]. split; [done | by left].
Qed.

Section Outcomes.
Context `{Runtime}.

Lemma delete_returns (entries : list (string * pyval)) (st : list Item) :
  ∃ v, (delete (PyDict entries) st).1 = Returns v.
Proof.
  rewrite delete_run.
  destruct (is_none (dict_get "id" entries)); [by eexists|].
  destruct (first_match (dict_get "id" entries) st)
    as [Hst | (pre & it & post & -> & Hpre & Hit)].
  - rewrite delete_loop_missing by done. by eexists.
  - pose proof (delete_loop_found _ pre it post [] (Forall_nil_2 _) Hpre Hit)
      as Hrun.
    simpl in Hrun. rewrite Hrun. by eexists.
Qed.

Lemma delete_raises (args : pyval) (st st' : list Item) (e : exn) :
  delete args st = (Raises e, st') → st' = st ∧ ¬ is_dict args.
Proof.
  destruct args as [| | | | | |entries];
    try (intros [= _ <-]; split; [done|]; by intros [? ?]).
  destruct (delete_returns entries st) as [v Hv].
  intros Hr. rewrite Hr in Hv. discriminate.
Qed.

Lemma search_store (args : pyval) (st : list Item) :
  (search args st).2 = st.
Proof.
  destruct args as [| | | | | |entries]; try done.
  unfold search, py_get. run.
  destruct (is_none (dict_get "q" entries)); [done|].
  pose proof (comprehension_store (dict_get "q" entries) st st) as Hc.
  by destruct (comprehension _ st st) as [[r | e] st'].
Qed.

(** What each registered handler leaves of the store when it raises. *)
Lemma registered_handler_raises (method : Method) (path : string)
    (fn : pyval → M pyval) (args : pyval) (st st' : list Item) (e : exn) :
  routing api method !! path = Some fn →
  fn args st = (Raises e, st') → st' = st.
Proof.
  destruct method.
  - rewrite routing_api_GET.
    repeat case_decide; intros [= <-]; try done.
    + intros Hr. pose proof (search_store args st) as Hs.
      by rewrite Hr in Hs.
  - rewrite routing_api_POST.
    repeat case_decide; intros [= <-]; try done.
    + intros Hr. by apply delete_raises in Hr as [-> _].
    + intros Hr. by apply add_raises in Hr as [-> _].
Qed.

(** A request that [call_api] does not answer with 200 has changed
    nothing in the store: under the program's table a 404 runs no handler,
    and each of the five handlers raises only before it has touched the
    list. *)
Theorem failure_leaves_store (method : Method) (path : string)
    (args : pyval) (s : Server) :
  status (call_api api method path args s).1 ≠ 200 →
  items (call_api api method path args s).2 = items s.
Proof.
  destruct (routing api method !! path) as [fn|] eqn:Hfn.
  - rewrite (call_api_route api method path fn args s Hfn).
    destruct (fn args (items s)) as [[v | e] l] eqn:Hrun; simpl; [done|].
    intros _. eapply registered_handler_raises; eauto.
  - intros _. unfold call_api, M in *. by rewrite Hfn.
Qed.

(** POST /delete with a JSON object never fails: whatever the object and
    the store, the answer has status 200 ([list.remove] always finds the
    item the loop stopped at).  With a body that is not an object the
    answer is 500, carrying the text of the AttributeError, and the store
    is as before. *)
Theorem delete_status (args : pyval) (s : Server) :
  (is_dict args →
   status (call_api api POST "/delete" args s).1 = 200)
  ∧ (¬ is_dict args →
     call_api api POST "/delete" args s
     = ({| status := 500; headers := [];
           body := JsonBody (error_payload (str_exn (AttributeError args))) |},
        inc s)).
Proof.
  rewrite (call_api_route api POST "/delete" delete args s route_delete).
  split.
  - intros [entries ->].
    destruct (delete_returns entries (items s)) as [v Hv].
    destruct (delete (PyDict entries) (items s)) as [[v' | e] l]; [done|].
    discriminate.
  - intros Hd. unfold delete, bind at 1. rewrite not_dict_get by done.
    by destruct s.
Qed.

(** POST /add with a body that is not a JSON object, on a store that is
    not empty: 500 with the text of the AttributeError, nothing added. *)
Theorem add_non_object (args : pyval) (s : Server) :
  items s ≠ [] → ¬ is_dict args →
  call_api api POST "/add" args s
  = ({| status := 500; headers := [];
        body := JsonBody (error_payload (str_exn (AttributeError args))) |},
     inc s).
Proof.
  intros Hs Hd.
  rewrite (call_api_route api POST "/add" add args s route_add).
  destruct (last (items s)) as [l|] eqn:Hl; [|by apply last_empty in Hl].
  unfold add, bind at 1. rewrite last_item_run, Hl.
  unfold bind at 1. rewrite not_dict_get by done. by destruct s.
Qed.

End Outcomes.

(** ** Ids and deletion *)

(** A value equals at most one integer. *)
Lemma py_int_eq_inj (a b : Z) (v : pyval) :
  py_int_eq a v = true → py_int_eq b v = true → a = b.
Proof.
  destruct v as [| [|] | n | f | | |]; simpl; try discriminate; try lia.
  destruct f as [| | |sg m e]; simpl; try discriminate; try lia.
  destruct (0 <=? e) eqn:He; [lia|].
  apply Z.leb_gt in He.
  assert (0 < 2 ^ (- e)) by (apply Z.pow_pos_nonneg; lia).
  intros Ha Hb. apply Z.eqb_eq in Ha, Hb. nia.
Qed.

Lemma filter_all {A} (P : A → Prop) `{!∀ x, Decision (P x)} (l : list A) :
  Forall P l → filter P l = l.
Proof.
  induction 1 as [|x l Hx _ IH]; [done|].
  by rewrite filter_cons_True, IH.
Qed.

Lemma non_numeric_skipped (given : pyval) (l : list Item) :
  non_numeric given → skipped given l.
Proof.
  intros Hg. apply Forall_forall. intros it _.
  by destruct given.
Qed.

Section Ids.
Context `{Runtime}.

Lemma delete_filter (entries : list (string * pyval)) (st : list Item) :
  ascending st →
  is_none (dict_get "id" entries) = false →
  (delete (PyDict entries) st).2
  = filter (λ it, py_int_eq (item_id it) (dict_get "id" entries) = false) st.
Proof.
  intros Hst Hid. rewrite delete_run, Hid.
  set (given := dict_get "id" entries).
  destruct (first_match given st)
    as [Hsk | (pre & it & post & -> & Hpre & Hit)].
  - rewrite delete_loop_missing by done. simpl.
    symmetry. by apply filter_all.
  - pose proof (delete_loop_found _ pre it post [] (Forall_nil_2 _) Hpre Hit)
      as Hrun.
    simpl in Hrun. rewrite Hrun. simpl.
    rewrite filter_app, filter_cons_False by (rewrite Hit; done).
    rewrite (filter_all _ pre) by done.
    rewrite (filter_all _ post); [done|].
    apply Forall_forall. intros e He.
    destruct (py_int_eq (item_id e) given) eqn:Heq; [|done].
    pose proof (py_int_eq_inj _ _ _ Heq Hit) as Hsame.
    unfold ascending in Hst.
    apply StronglySorted_app_1_r, StronglySorted_cons in Hst as [Hlt _].
    rewrite Forall_forall in Hlt. specialize (Hlt e He). simpl in Hlt. lia.
Qed.

(** On a reachable store, [delete] with an id that is not None leaves
    exactly the items whose id does not equal it, in their order: the ids
    being distinct, the one item it removes is the only one that matches. *)
Theorem delete_removes_the_id (entries : list (string * pyval))
    (st : list Item) :
  reachable st →
  ¬ missing "id" entries →
  (delete (PyDict entries) st).2
  = filter (λ it, py_int_eq (item_id it) (dict_get "id" entries) = false) st.
Proof.
  intros Hst Hid. apply delete_filter.
  - by apply reachable_ascending.
  - by apply not_missing_is_none.
Qed.

(** Deleting twice: on a reachable store, a second [delete] with the same
    id finds nothing, returns the payload "item not found with id ..."
    and changes nothing. *)
Theorem delete_twice (entries : list (string * pyval)) (st : list Item) :
  reachable st →
  ¬ missing "id" entries →
  delete (PyDict entries) (delete (PyDict entries) st).2
  = (Returns (error_payload
                ("item not found with id " +:+ py_str (dict_get "id" entries))),
     (delete (PyDict entries) st).2).
Proof.
  intros Hst Hid. apply reachable_ascending in Hst.
  apply not_missing_is_none in Hid.
  rewrite (delete_filter entries st Hst Hid).
  rewrite delete_run, Hid. apply delete_loop_missing.
  apply Forall_forall. intros e He.
  by apply list_elem_of_filter in He as [He _].
Qed.

(** Ids come back: on a reachable store whose last item [l] has an item
    [l'] before it, deleting [l] by its id and adding again creates an
    item numbered after [l'], with an id that is not above the one just
    deleted, and equal to it when the two ids were consecutive. *)
Theorem id_given_again (entries : list (string * pyval)) (init : list Item)
    (l l' : Item) :
  reachable (init ++ [l]) →
  last init = Some l' →
  ¬ missing "name" entries → ¬ missing "description" entries →
  (delete (PyDict [("id", PyInt (item_id l))]) (init ++ [l])).2 = init
  ∧ add (PyDict entries) init
    = (Returns (item_dict (new_item l' entries)),
       init ++ [new_item l' entries])
  ∧ item_id (new_item l' entries) ≤ item_id l
  ∧ (item_id l = item_id l' + 1 → item_id (new_item l' entries) = item_id l).
Proof.
  intros Hst Hl' Hn Hd. apply reachable_ascending in Hst.
  apply not_missing_is_none in Hn, Hd.
  assert (∀ e, e ∈ init → item_id e < item_id l) as Hlt.
  { intros e He.
    apply (StronglySorted_app_1_elem_of _ _ _ _ _ Hst He).
    by apply list_elem_of_singleton. }
  split; [|split; [|split]].
  - assert (skipped (PyInt (item_id l)) init) as Hsk.
    { apply Forall_forall. intros e He. simpl.
      specialize (Hlt e He). lia. }
    pose proof (delete_loop_found (PyInt (item_id l)) init l [] []
                  (Forall_nil_2 _) Hsk) as Hrun.
    simpl in Hrun. rewrite app_nil_r in Hrun.
    assert (delete (PyDict [("id", PyInt (item_id l))]) (init ++ [l])
            = (Returns (PyDict [("deleted", PyInt (item_id l))]), init))
      as ->; [|done].
    rewrite delete_run. simpl. apply Hrun. simpl. lia.
  - rewrite (add_run entries init l' Hl'), Hn, Hd. reflexivity.
  - simpl. assert (l' ∈ init) as Hin.
    { destruct init as [|x init' _] using rev_ind; [done|].
      rewrite last_snoc in Hl'. injection Hl' as ->.
      apply elem_of_app. right. by apply list_elem_of_singleton. }
    specialize (Hlt l' Hin). lia.
  - simpl. lia.
Qed.

(** On a reachable store the last item has the largest id, so the id
    [add] gives out, the last id plus one, is the maximum plus one and is
    the id of no item of the store. *)
Theorem new_id_is_max_plus_one (st : list Item) (l : Item) :
  reachable st →
  last st = Some l →
  l ∈ st
  ∧ (∀ e, e ∈ st → item_id e ≤ item_id l)
  ∧ item_id l + 1 ∉ item_id <$> st.
Proof.
  intros Hst Hl. apply reachable_ascending in Hst.
  split; [|split].
  - destruct st as [|x st' _] using rev_ind; [done|].
    rewrite last_snoc in Hl. injection Hl as ->.
    apply elem_of_app. right. by apply list_elem_of_singleton.
  - intros e He. by apply (ascending_last st l).
  - intros Hin. apply list_elem_of_fmap in Hin as (e & Heq & He).
    pose proof (ascending_last st l Hst Hl e He). lia.
Qed.

(** Adding and then deleting by the id returned gives the store back: on
    a reachable, non-empty store, after [add] has created an item,
    [delete] with that item's id returns [{"deleted": id}] and leaves the
    store as it was before the [add]. *)
Theorem add_then_delete (entries : list (string * pyval)) (st : list Item)
    (l : Item) :
  reachable st →
  last st = Some l →
  ¬ missing "name" entries → ¬ missing "description" entries →
  add (PyDict entries) st
  = (Returns (item_dict {| item_id := item_id l + 1;
                           item_name := dict_get "name" entries;
                           item_description :=
                             dict_get "description" entries |}),
     st ++ [ {| item_id := item_id l + 1;
                item_name := dict_get "name" entries;
                item_description := dict_get "description" entries |} ])
  ∧ delete (PyDict [("id", PyInt (item_id l + 1))])
      (add (PyDict entries) st).2
    = (Returns (PyDict [("deleted", PyInt (item_id l + 1))]), st).
Proof.
  intros Hst Hl Hn Hd. apply reachable_ascending in Hst.
  apply not_missing_is_none in Hn, Hd.
  rewrite (add_run entries st l Hl), Hn, Hd. simpl. split; [done|].
  rewrite delete_run. simpl.
  set (it := {| item_id := item_id l + 1;
                item_name := dict_get "name" entries;
                item_description := dict_get "description" entries |}).
  assert (skipped (PyInt (item_id l + 1)) st) as Hsk.
  { apply Forall_forall. intros e He. simpl.
    pose proof (ascending_last st l Hst Hl e He). lia. }
  pose proof (delete_loop_found (PyInt (item_id l + 1)) st it [] []
                (Forall_nil_2 _) Hsk) as Hrun.
  simpl in Hrun. rewrite app_nil_r in Hrun. apply Hrun.
  simpl. lia.
Qed.

(** [delete] with an id that is a string, a list or a dictionary finds
    nothing, whatever the store: no integer id equals such a value, so
    "1000" does not delete the item 1000. *)
Theorem delete_non_numeric_id (entries : list (string * pyval))
    (st : list Item) :
  non_numeric (dict_get "id" entries) →
  delete (PyDict entries) st
  = (Returns (error_payload
                ("item not found with id " +:+ py_str (dict_get "id" entries))),
     st).
Proof.
  intros Hg. rewrite delete_run.
  assert (is_none (dict_get "id" entries) = false) as ->
    by (by destruct (dict_get "id" entries)).
  by apply delete_loop_missing, non_numeric_skipped.
Qed.

End Ids.

(** ** Sequences of requests *)

Section Sequences.
Context `{Runtime}.

Lemma delete_empty (args : pyval) : (delete args []).2 = [].
Proof.
  destruct (delete_store args []) as [Hd | (pre & it & post & Hst & _)];
    [done|].
  by destruct pre.
Qed.

(** Under the program's table only POST /add and POST /delete can change
    the store. *)
Lemma call_api_items (method : Method) (path : string) (args : pyval)
    (s : Server) :
  items (call_api api method path args s).2 =
  match method with
  | GET => items s
  | POST =>
      if decide (path = "/delete") then (delete args (items s)).2
      else if decide (path = "/add") then (add args (items s)).2
      else items s
  end.
Proof.
  destruct (routing api method !! path) as [fn|] eqn:Hfn.
  - rewrite (call_api_route api method path fn args s Hfn).
    assert (items (match fn args (items s) with
                   | (Returns v, l) =>
                       ({| status := 200; headers := []; body := JsonBody v |},
                        with_items (inc s) l)
                   | (Raises e, l) =>
                       ({| status := 500; headers := [];
                           body := JsonBody (error_payload (str_exn e)) |},
                        with_items (inc s) l)
                   end).2 = (fn args (items s)).2) as ->
      by (by destruct (fn args (items s)) as [[v | e] l]).
    destruct method.
    + rewrite routing_api_GET in Hfn.
      repeat case_decide; simplify_eq; try done.
      apply search_store.
    + rewrite routing_api_POST in Hfn.
      by repeat case_decide; simplify_eq.
  - unfold call_api, M in *. rewrite Hfn. simpl.
    destruct method; [done|].
    rewrite routing_api_POST in Hfn. by repeat case_decide.
Qed.

(** The state after a dispatch that is passed on as a response. *)
Lemma passed_on_state (c : Response * Server) :
  (let '(r, s') := c in (Returns r, s')).2 = c.2.
Proof. by destruct c. Qed.

Lemma serve_items_empty (r : Request) (s : Server) :
  items s = [] → items (serve api r s) = [].
Proof.
  intros Hs. destruct r as [ps req | req]; simpl.
  - unfold do_GET. destruct (get_path req) as [path | e]; [|done].
    repeat case_decide; try done.
    by rewrite passed_on_state, call_api_items.
  - unfold do_POST. destruct (post_path req) as [path | e]; [|done].
    case_decide; [done|].
    destruct (read_json req) as [args | e]; [|done].
    rewrite passed_on_state, call_api_items, Hs.
    repeat case_decide; [apply delete_empty | by rewrite add_empty | done].
Qed.

(** Once the store is empty it stays empty: whatever requests follow, GET
    or POST, to any path and with any body, no item is ever in the store
    again ([add] needs a last item to number the new one). *)
Theorem empty_store_stays_empty (rs : list Request) (s : Server) :
  items s = [] → items (serve_all api rs s) = [].
Proof.
  revert s. induction rs as [|r rs IH]; intros s Hs; [done|].
  simpl. apply IH. by apply serve_items_empty.
Qed.

Lemma serve_counter (rt : API) (r : Request) (s : Server) :
  REQUESTS_TOTAL (serve rt r s)
  = REQUESTS_TOTAL s + (if dispatched r then 1 else 0).
Proof.
  destruct r as [ps req | req]; unfold serve, dispatched.
  - unfold do_GET. destruct (get_path req) as [path | e]; [|simpl; lia].
    destruct (decide (path = "/health")) as [Hh | Hh].
    { rewrite bool_decide_false by tauto. simpl. lia. }
    destruct (decide (path = "/metrics")) as [Hm | Hm].
    { rewrite bool_decide_false by tauto. simpl. lia. }
    rewrite bool_decide_true by done.
    rewrite passed_on_state. apply call_api_counter.
  - unfold do_POST. destruct (post_path req) as [path | e]; [|simpl; lia].
    destruct (decide (content_type req ≠ Some "application/json"))
      as [Hct | Hct].
    { rewrite bool_decide_false by done. simpl. lia. }
    apply dec_stable in Hct. rewrite bool_decide_true by done. simpl.
    destruct (read_json req) as [args | e]; [|simpl; lia].
    rewrite passed_on_state. apply call_api_counter.
Qed.

(** After any sequence of requests, under any table, the request counter
    has grown by the number of requests that reached [call_api]: those
    whose target was parsed and that are GET requests other than /health
    and /metrics, or POST requests with the JSON content type and a body
    that decoded.  It never decreases, and a GET /metrics served next
    reports exactly that value. *)
Theorem counter_counts_dispatched (rt : API) (rs : list Request)
    (s : Server) (ps : Psutil) (query : list (string * list string)) :
  REQUESTS_TOTAL (serve_all rt rs s)
  = REQUESTS_TOTAL s + Z.of_nat (length (filter (λ r, dispatched r) rs))
  ∧ REQUESTS_TOTAL s ≤ REQUESTS_TOTAL (serve_all rt rs s)
  ∧ (do_GET rt ps {| get_path := Returns "/metrics"; get_query := query |}
        (serve_all rt rs s)).1
    = Returns
        {| status := 200;
           headers := [("Content-Type", CONTENT_TYPE_LATEST)];
           body := MetricsBody
                     (REQUESTS_TOTAL s
                      + Z.of_nat (length (filter (λ r, dispatched r) rs)))
                     (cpu_percent ps) (virtual_memory_percent ps) |}.
Proof.
  assert (REQUESTS_TOTAL (serve_all rt rs s)
          = REQUESTS_TOTAL s
            + Z.of_nat (length (filter (λ r, dispatched r) rs))) as Hcount.
  { revert s. induction rs as [|r rs IH]; intros s; simpl; [lia|].
    fold (serve_all rt rs (serve rt r s)). rewrite IH, serve_counter.
    rewrite filter_cons. destruct (dispatched r); simpl; lia. }
  split; [done|]. split; [lia|].
  unfold do_GET. simpl. by rewrite Hcount.
Qed.

End Sequences.

(** ** Searching *)

Lemma unwrap_single_get (k : string) (query : list (string * list string)) :
  ∀ entries, unwrap_single query = PyDict entries →
  assoc k entries
  = (λ vs, match vs with
           | [v] => PyStr v
           | _ => PyList (PyStr <$> vs)
           end) <$> query_get k query.
Proof.
  unfold unwrap_single. intros entries [= <-].
  induction query as [|[k' vs] query IH]; [done|].
  simpl. destruct (decide (k = k')); [|done].
  by destruct vs as [|v [|v' vs]].
Qed.

Section Searching.
Context `{Runtime}.

Lemma comprehension_sublist (q : pyval) (l st : list Item)
    (r : list Item) (st' : list Item) :
  comprehension q l st = (Returns r, st') → sublist r l.
Proof.
  revert r st'. induction l as [|it l IH]; intros r st'; simpl.
  - intros [= <- _]. constructor.
  - unfold bind at 1. unfold lift.
    destruct (py_in q (item_name it)) as [keep | e]; [|discriminate].
    unfold bind at 1.
    destruct (comprehension q l st) as [[r' | e] st''] eqn:Hc; [|discriminate].
    intros [= <- _]. specialize (IH r' st'' eq_refl).
    destruct keep; by constructor.
Qed.

(** Whenever [search] returns for a q that is not None, whatever kind of
    value q and the names are, the items it returns are items of the
    store in store order, a selection of them, the count is their number,
    at most the size of the store, and the store is as before. *)
Theorem search_returns_selection (entries : list (string * pyval))
    (st st' : list Item) (v : pyval) :
  ¬ missing "q" entries →
  search (PyDict entries) st = (Returns v, st') →
  st' = st
  ∧ ∃ results,
      sublist results st
      ∧ (length results ≤ length st)%nat
      ∧ v = PyDict [("count", PyInt (Z.of_nat (length results)));
                    ("items", PyList (item_dict <$> results))].
Proof.
  intros Hq. apply not_missing_is_none in Hq.
  unfold search, py_get. run. rewrite Hq.
  pose proof (comprehension_store (dict_get "q" entries) st st) as Hst.
  destruct (comprehension (dict_get "q" entries) st st)
    as [[results | e] st''] eqn:Hc; [|discriminate].
  simpl in Hst. subst st''. intros [= <- <-]. split; [done|].
  apply comprehension_sublist in Hc.
  exists results. split; [done|]. split; [|done].
  by apply sublist_length.
Qed.

Lemma search_strings (entries : list (string * pyval)) (q : string)
    (st : list Item) :
  assoc "q" entries = Some (PyStr q) →
  string_names st →
  search (PyDict entries) st
  = (Returns (PyDict [("count",
                       PyInt (Z.of_nat (length (filter (name_contains q) st))));
                      ("items",
                       PyList (item_dict <$> filter (name_contains q) st))]),
     st).
Proof.
  intros Hq Hst. unfold search, py_get, dict_get. rewrite Hq. run.
  by rewrite comprehension_strings.
Qed.

(** GET /search from the query string to the response, on a store whose
    names are strings.  Without a q parameter: 200 with the payload
    "q parameter required".  With q given once: 200 with the items whose
    name contains it, in store order, and their number.  With q given
    several times the argument is a list, which cannot be searched for in
    a string: on a non-empty store the answer is 500.  The store is the
    same in all three cases and the request is counted. *)
Theorem get_search (ps : Psutil) (query : list (string * list string))
    (s : Server) :
  string_names (items s) →
  (query_get "q" query = None →
   do_GET api ps {| get_path := Returns "/search"; get_query := query |} s
   = (Returns {| status := 200; headers := [];
                 body := JsonBody (error_payload "q parameter required") |},
      inc s))
  ∧ (∀ q, query_get "q" query = Some [q] →
     do_GET api ps {| get_path := Returns "/search"; get_query := query |} s
     = (Returns
          {| status := 200; headers := [];
             body := JsonBody
               (PyDict [("count",
                         PyInt (Z.of_nat
                                  (length
                                     (filter (name_contains q) (items s)))));
                        ("items",
                         PyList (item_dict
                                 <$> filter (name_contains q) (items s)))]) |},
        inc s))
  ∧ (∀ q1 q2 qs, query_get "q" query = Some (q1 :: q2 :: qs) →
     items s ≠ [] →
     do_GET api ps {| get_path := Returns "/search"; get_query := query |} s
     = (Returns
          {| status := 500; headers := [];
             body := JsonBody
               (error_payload
                  (str_exn
                     (TypeError (PyList (PyStr <$> q1 :: q2 :: qs))))) |},
        inc s)).
Proof.
  intros Hnames. unfold do_GET. simpl.
  rewrite (call_api_route api GET "/search" search _ s route_search).
  destruct (unwrap_single query) as [| | | | | |entries] eqn:Hu;
    try discriminate.
  pose proof (unwrap_single_get "q" query entries Hu) as Hget.
  split; [|split].
  - intros Hq. rewrite Hq in Hget. simpl in Hget.
    unfold search, py_get, dict_get. rewrite Hget. run. by destruct s.
  - intros q Hq. rewrite Hq in Hget. simpl in Hget.
    rewrite (search_strings entries q (items s) Hget Hnames). by destruct s.
  - intros q1 q2 qs Hq Hs. rewrite Hq in Hget. simpl in Hget.
    unfold search, py_get, dict_get. rewrite Hget. run.
    destruct (items s) as [|it rest] eqn:Hitems; [done|].
    apply Forall_cons in Hnames as [[name Hname] _].
    simpl. unfold bind at 1. unfold lift. rewrite Hname. simpl.
    destruct s. simpl in *. by subst.
Qed.

End Searching.

(** ** The properties above on concrete requests *)

Lemma failure_leaves_store_witness :
  status (@call_api sample_runtime (@api sample_runtime) POST "/add"
            (PyDict fish) emptied).1 ≠ 200
  ∧ items (@call_api sample_runtime (@api sample_runtime) POST "/add"
             (PyDict fish) emptied).2 = [].
Proof.
  split; [discriminate|].
  apply (@failure_leaves_store sample_runtime POST "/add" (PyDict fish)
           emptied).
  discriminate.
Defined.

Lemma delete_status_witness :
  status (@call_api sample_runtime (@api sample_runtime) POST "/delete"
            (PyDict fish) initial).1 = 200
  ∧ status (@call_api sample_runtime (@api sample_runtime) POST "/delete"
              (PyList []) initial).1 = 500.
Proof.
  split.
  - apply (proj1 (@delete_status sample_runtime (PyDict fish) initial)).
    by eexists.
  - rewrite (proj2 (@delete_status sample_runtime (PyList []) initial));
      [reflexivity|].
    intros [entries Hd]. discriminate Hd.
Defined.

Lemma add_non_object_witness :
  status (@call_api sample_runtime (@api sample_runtime) POST "/add"
            (PyStr "fish") initial).1 = 500
  ∧ items (@call_api sample_runtime (@api sample_runtime) POST "/add"
             (PyStr "fish") initial).2 = example_data.
Proof.
  rewrite (@add_non_object sample_runtime (PyStr "fish") initial).
  - split; reflexivity.
  - discriminate.
  - intros [entries Hd]. discriminate Hd.
Defined.

Lemma delete_removes_the_id_witness :
  item_id <$> (@delete sample_runtime (PyDict [("id", PyInt 1001)])
                 example_data).2 = [1000; 1002].
Proof.
  rewrite (@delete_removes_the_id sample_runtime [("id", PyInt 1001)]
             example_data).
  - reflexivity.
  - apply reachable_start.
  - intros [Hm | Hm]; vm_compute in Hm; discriminate.
Defined.

Lemma new_id_is_max_plus_one_witness :
  1003 ∉ item_id <$> example_data.
Proof.
  exact (proj2 (proj2 (@new_id_is_max_plus_one sample_runtime example_data
                         {| item_id := 1002; item_name := PyStr "bird";
                            item_description := PyStr "bird is singing" |}
                         (@reachable_start sample_runtime) eq_refl))).
Defined.

Lemma add_then_delete_witness :
  @delete sample_runtime (PyDict [("id", PyInt 1003)])
    (add (PyDict fish) example_data).2
  = (Returns (PyDict [("deleted", PyInt 1003)]), example_data).
Proof.
  refine (proj2 (@add_then_delete sample_runtime fish example_data
                   {| item_id := 1002; item_name := PyStr "bird";
                      item_description := PyStr "bird is singing" |}
                   (@reachable_start sample_runtime) eq_refl _ _));
    intros [Hm | Hm]; vm_compute in Hm; discriminate.
Defined.

Lemma delete_non_numeric_id_witness :
  @delete sample_runtime (PyDict [("id", PyStr "1000")]) example_data
  = (Returns (error_payload "item not found with id 1000"), example_data).
Proof.
  exact (@delete_non_numeric_id sample_runtime [("id", PyStr "1000")]
           example_data I).
Defined.

Lemma empty_store_stays_empty_witness :
  items emptied = []
  ∧ items (@serve_all sample_runtime (@api sample_runtime)
             [post_fish; post_fish] emptied) = [].
Proof.
  split; [reflexivity|].
  exact (@empty_store_stays_empty sample_runtime [post_fish; post_fish]
           emptied eq_refl).
Defined.

Lemma search_returns_selection_witness :
  ∃ results,
    sublist results example_data
    ∧ (@search sample_runtime (PyDict [("q", PyStr "o")]) example_data).1
      = Returns (PyDict [("count", PyInt (Z.of_nat (length results)));
                         ("items", PyList (item_dict <$> results))]).
Proof.
  destruct (@search_returns_selection sample_runtime [("q", PyStr "o")]
              example_data example_data
              (PyDict [("count", PyInt 1);
                       ("items",
                        PyList [item_dict
                                  {| item_id := 1001; item_name := PyStr "dog";
                                     item_description :=
                                       PyStr "dog is barking" |}])]))
    as (_ & results & Hsub & _ & Hv).
  - intros [Hm | Hm]; vm_compute in Hm; discriminate.
  - reflexivity.
  - exists results. split; [exact Hsub|]. rewrite <- Hv. reflexivity.
Defined.

Lemma get_search_witness :
  (@do_GET sample_runtime (@api sample_runtime) no_load
     {| get_path := Returns "/search"; get_query := [("q", ["ca"])] |}
     initial).1
  = Returns
      {| status := 200; headers := [];
         body := JsonBody
           (PyDict [("count", PyInt 1);
                    ("items",
                     PyList [item_dict
                               {| item_id := 1000; item_name := PyStr "cat";
                                  item_description :=
                                    PyStr "cat is meowing" |}])]) |}
  ∧ ∃ r, (@do_GET sample_runtime (@api sample_runtime) no_load
            {| get_path := Returns "/search";
               get_query := [("q", ["c"; "a"])] |}
            initial).1 = Returns r
         ∧ status r = 500.
Proof.
  assert (string_names (items initial)) as Hnames
    by (repeat (apply Forall_cons; split; [by eexists|]); apply Forall_nil_2).
  split.
  - rewrite (proj1 (proj2 (@get_search sample_runtime no_load
                             [("q", ["ca"])] initial Hnames)) "ca" eq_refl).
    reflexivity.
  - rewrite (proj2 (proj2 (@get_search sample_runtime no_load
                             [("q", ["c"; "a"])] initial Hnames))
               "c" "a" [] eq_refl); [|discriminate].
    eexists. split; reflexivity.
Defined.

(** ** [do_POST] from the request to the response *)

Section Posting.
Context `{Runtime}.



(** POST /add then GET /list: on a server whose store has a last item
    [l], a JSON POST to /add with a name and a description is answered 200
    with the created item, numbered after [l], and counted; GET /list
    served next answers 200 with a count one higher than the store had
    and the old items followed by the new one. *)
Theorem post_add_then_list (ps : Psutil) (entries : list (string * pyval))
    (s : Server) (l : Item) :
  last (items s) = Some l →
  ¬ missing "name" entries → ¬ missing "description" entries →
  do_POST api (post_add entries) s
  = (Returns {| status := 200; headers := [];
                body := JsonBody (item_dict (new_item l entries)) |},
     with_items (inc s) (items s ++ [new_item l entries]))
  ∧ (do_GET api ps get_list (do_POST api (post_add entries) s).2).1
    = Returns
        {| status := 200; headers := [];
           body := JsonBody
             (PyDict [("count", PyInt (Z.of_nat (length (items s)) + 1));
                      ("items",
                       PyList ((item_dict <$> items s)
                               ++ [item_dict (new_item l entries)]))]) |}.
Proof.
  intros Hl Hn Hd. apply not_missing_is_none in Hn, Hd.
  assert (do_POST api (post_add entries) s
          = (Returns {| status := 200; headers := [];
                        body := JsonBody (item_dict (new_item l entries)) |},
             with_items (inc s) (items s ++ [new_item l entries]))) as Hpost.
  { unfold do_POST, post_add. simpl.
    rewrite (call_api_route api POST "/add" add _ s route_add).
    by rewrite (add_run entries (items s) l Hl), Hn, Hd. }
  split; [done|]. rewrite Hpost. unfold do_GET, get_list. simpl.
  rewrite (call_api_route api GET "/list" list_items _ _ route_list).
  simpl. rewrite length_app, fmap_app. simpl.
  by rewrite Nat2Z.inj_add.
Qed.

End Posting.


Lemma post_add_then_list_witness :
  (@do_GET sample_runtime (@api sample_runtime) no_load get_list
     (@do_POST sample_runtime (@api sample_runtime) (post_add fish)
        initial).2).1
  = Returns
      {| status := 200; headers := [];
         body := JsonBody
           (PyDict [("count", PyInt 4);
                    ("items",
                     PyList ((item_dict <$> example_data)
                             ++ [item_dict
                                   {| item_id := 1003;
                                      item_name := PyStr "fish";
                                      item_description :=
                                        PyStr "fish swims" |}]))]) |}.
Proof.
  rewrite (proj2 (@post_add_then_list sample_runtime no_load fish initial
                    {| item_id := 1002; item_name := PyStr "bird";
                       item_description := PyStr "bird is singing" |}
                    eq_refl
                    ltac:(intros [Hm | Hm]; vm_compute in Hm; discriminate)
                    ltac:(intros [Hm | Hm]; vm_compute in Hm; discriminate))).
  reflexivity.
Defined.

Lemma delete_twice_witness :
  @delete sample_runtime (PyDict [("id", PyInt 1001)])
    (@delete sample_runtime (PyDict [("id", PyInt 1001)]) example_data).2
  = (Returns (error_payload "item not found with id 1001"),
     (@delete sample_runtime (PyDict [("id", PyInt 1001)]) example_data).2).
Proof.
  apply (@delete_twice sample_runtime [("id", PyInt 1001)] example_data).
  - apply reachable_start.
  - intros [Hm | Hm]; vm_compute in Hm; discriminate.
Defined.

Lemma id_given_again_witness :
  (add (PyDict fish)
     (@delete sample_runtime (PyDict [("id", PyInt 1002)])
        example_data).2).1
  = Returns (item_dict {| item_id := 1002; item_name := PyStr "fish";
                          item_description := PyStr "fish swims" |}).
Proof.
  destruct (@id_given_again sample_runtime fish
              [ {| item_id := 1000; item_name := PyStr "cat";
                   item_description := PyStr "cat is meowing" |};
                {| item_id := 1001; item_name := PyStr "dog";
                   item_description := PyStr "dog is barking" |} ]
              {| item_id := 1002; item_name := PyStr "bird";
                 item_description := PyStr "bird is singing" |}
              {| item_id := 1001; item_name := PyStr "dog";
                 item_description := PyStr "dog is barking" |}
              (@reachable_start sample_runtime) eq_refl
              ltac:(intros [Hm | Hm]; vm_compute in Hm; discriminate)
              ltac:(intros [Hm | Hm]; vm_compute in Hm; discriminate))
    as (Hdel & Hadd & _ & _).
  change (@delete sample_runtime (PyDict [("id", PyInt 1002)]) example_data)
    with (@delete sample_runtime
            (PyDict [("id", PyInt (item_id
               {| item_id := 1002; item_name := PyStr "bird";
                  item_description := PyStr "bird is singing" |}))])
            ([ {| item_id := 1000; item_name := PyStr "cat";
                  item_description := PyStr "cat is meowing" |};
               {| item_id := 1001; item_name := PyStr "dog";
                  item_description := PyStr "dog is barking" |} ]
             ++ [ {| item_id := 1002; item_name := PyStr "bird";
                     item_description := PyStr "bird is singing" |} ])).
  rewrite Hdel, Hadd. reflexivity.
Defined.
